(** * web-scraper-python: a shallow embedding of [src/web_scraper.py]
    and [src/scraper.py]

    The script fetches one page, locates one table by class name, walks its
    rows and cells into a grid of strings and writes the grid to a formatted
    spreadsheet.  Python values are modelled as follows:

    - [str] is a list of Unicode code points ([list N]);
    - [int] is [Z];
    - [None]-able values are [option];
    - raised exceptions are the [Raise] branch of [result];
    - the parsed document is a tree of [PageElement]s;
    - an openpyxl worksheet is a finite map from (row, column) to cells
      together with a finite map from column letters to column dimensions;
    - printing and the file system are threaded through a [World]; the
      network and the HTML parser are parameters of the pipeline.

    The library calls follow requests 2, Beautiful Soup 4 with the
    [html.parser] tree builder, pandas 2 (columns of Python objects, a
    missing value is [None]) and openpyxl 3.1. *)

From Stdlib Require Import ZArith NArith Ascii String.
From stdpp Require Import gmap list strings fin_maps pretty.

Set Warnings "-register-all".
Local Open Scope Z_scope.

(** ** Python strings *)

Abbreviation pystr := (list N).

(** [u "abc"] is the Python literal ['abc']. *)
Definition u (s : string) : pystr := N_of_ascii <$> list_ascii_of_string s.

(** [len(s)] *)
Definition len {A} (l : list A) : Z := Z.of_nat (length l).

(** [Py_UNICODE_ISSPACE]: the characters removed by [str.strip()] and on
    which [str.split()] splits. *)
Definition isspace (c : N) : bool :=
  ((9 <=? c) && (c <=? 13) || (28 <=? c) && (c <=? 32) || (c =? 133) ||
   (c =? 160) || (c =? 5760) || (8192 <=? c) && (c <=? 8202) ||
   (c =? 8232) || (c =? 8233) || (c =? 8239) || (c =? 8287) ||
   (c =? 12288))%N.

Fixpoint lstrip (s : pystr) : pystr :=
  match s with
  | c :: s' => if isspace c then lstrip s' else s
  | [] => []
  end.

Definition rstrip (s : pystr) : pystr := reverse (lstrip (reverse s)).

(** [s.strip()] *)
Definition strip (s : pystr) : pystr := rstrip (lstrip s).

(** [sep.join(l)] *)
Fixpoint join (sep : pystr) (l : list pystr) : pystr :=
  match l with
  | [] => []
  | [x] => x
  | x :: l' => x ++ sep ++ join sep l'
  end.

(** [str(n)] for an [int]. *)
Definition str_int (n : Z) : pystr := u (pretty n).

(** ** Exceptions *)

Inductive exn_class :=
  | IndexError
  | ValueError
  | IllegalCharacterError
  | OSError
  | UnicodeEncodeError
  | RequestException
  | HTTPError
  | ConnectionError
  | Timeout
  | OtherError.

(** [issubclass(c, requests.RequestException)] *)
Definition is_RequestException (c : exn_class) : bool :=
  match c with
  | RequestException | HTTPError | ConnectionError | Timeout => true
  | _ => false
  end.

Record exn := Exn { exn_cls : exn_class; exn_msg : pystr }.

Inductive result (A : Type) :=
  | Ok (a : A)
  | Raise (e : exn).
Arguments Ok {A} a.
Arguments Raise {A} e.

Definition rbind {A B} (m : result A) (k : A -> result B) : result B :=
  match m with
  | Ok a => k a
  | Raise e => Raise e
  end.

Declare Scope res_scope.
Delimit Scope res_scope with res.
Notation "'let*' x := m 'in' k" := (rbind m (fun x => k))
  (at level 10, x pattern, m at level 100, k at level 200) : res_scope.

Definition raised {A} (m : result A) (c : exn_class) : Prop :=
  exists msg, m = Raise (Exn c msg).

(** [for x in l: s = f(s, x)], stopping at the first exception. *)
Fixpoint for_each {S A} (f : S -> A -> result S) (l : list A) (s : S)
  : result S :=
  match l with
  | [] => Ok s
  | x :: l' => (let* s' := f s x in for_each f l' s')%res
  end.

(** [enumerate(l, start)] *)
Fixpoint enumerate {A} (l : list A) (start : Z) : list (Z * A) :=
  match l with
  | [] => []
  | x :: l' => (start, x) :: enumerate l' (start + 1)
  end.

(** ** The parsed document (bs4) *)

(** The classes of string nodes the tree builder creates. *)
Inductive StringClass :=
  | NavigableString
  | CData
  | Comment
  | Declaration
  | Doctype
  | ProcessingInstruction
  | Script
  | Stylesheet
  | TemplateString
  | RubyTextString
  | RubyParenthesisString.

(** An attribute value is a string, or a list of tokens for the
    multi-valued attributes such as [class]. *)
Inductive AttrValue :=
  | AttrStr (s : pystr)
  | AttrList (l : list pystr).

Inductive PageElement :=
  | Tag (name : pystr) (attrs : list (pystr * AttrValue))
        (contents : list PageElement)
  | Str (cls : StringClass) (s : pystr).

(** [tag.attrs.get(key)] *)
Fixpoint attrs_get (attrs : list (pystr * AttrValue)) (key : pystr)
  : option AttrValue :=
  match attrs with
  | [] => None
  | (k, v) :: attrs' => if decide (k = key) then Some v else attrs_get attrs' key
  end.

(** [tag.descendants]: every node below [e], in document order. *)
Fixpoint descendants (e : PageElement) : list PageElement :=
  match e with
  | Tag _ _ cs => flat_map (fun c => c :: descendants c) cs
  | Str _ _ => []
  end.

(** The default [interesting_string_types] of a tag: exactly
    [NavigableString] and [CData]. *)
Definition interesting (cls : StringClass) : bool :=
  match cls with
  | NavigableString | CData => true
  | _ => false
  end.

(** [tag._all_strings()] *)
Definition all_strings (e : PageElement) : list pystr :=
  flat_map (fun d => match d with
                     | Str cls s => if interesting cls then [s] else []
                     | Tag _ _ _ => []
                     end) (descendants e).

(** [tag.text], that is [tag.get_text()] with the empty separator, of a
    tag with the default [interesting_string_types]: every tag but [rt],
    [rp], [style], [script] and [template].  The scripts call it on [td]
    and [th] cells and on the document root only. *)
Definition text (e : PageElement) : pystr := join [] (all_strings e).

(** A search filter as built by [find_all(name, class_=...)]: [names] is
    the list of accepted tag names, [class_] the optional class filter. *)
Record SoupStrainer := { names : list pystr; class_ : option pystr }.

(** [SoupStrainer._matches] of an attribute value against a string. *)
Definition matches_attr (v : option AttrValue) (target : pystr) : bool :=
  match v with
  | None => bool_decide (target = [])
  | Some (AttrStr s) => bool_decide (s = target)
  | Some (AttrList toks) =>
      existsb (fun t => bool_decide (t = target)) toks
      || bool_decide (join (u " ") toks = target)
  end.

(** [SoupStrainer.search]: only tags can match a filter with a name. *)
Definition search (st : SoupStrainer) (e : PageElement) : bool :=
  match e with
  | Tag name attrs _ =>
      existsb (fun n => bool_decide (name = n)) (names st)
      && match class_ st with
         | None => true
         | Some c => matches_attr (attrs_get attrs (u "class")) c
         end
  | Str _ _ => false
  end.

(** [Tag._find_all]: walk the generator, collect the matches, stop when
    [limit] results were found. *)
Fixpoint find_all_loop (st : SoupStrainer) (limit : option nat)
    (generator : list PageElement) (results : list PageElement)
  : list PageElement :=
  match generator with
  | [] => results
  | i :: generator' =>
      if search st i then
        let results' := results ++ [i] in
        match limit with
        | Some n =>
            if (0 <? n)%nat && (n <=? length results')%nat then results'
            else find_all_loop st limit generator' results'
        | None => find_all_loop st limit generator' results'
        end
      else find_all_loop st limit generator' results
  end.

(** [tag.find_all(...)] *)
Definition find_all (st : SoupStrainer) (e : PageElement) : list PageElement :=
  find_all_loop st None (descendants e) [].

(** [tag.find(...)]: [find_all] with [limit=1], then the first result. *)
Definition find (st : SoupStrainer) (e : PageElement) : option PageElement :=
  match find_all_loop st (Some 1%nat) (descendants e) [] with
  | r :: _ => Some r
  | [] => None
  end.

(** ** Table Extractor *)

Definition extract_table_data (table : PageElement) : list (list pystr) :=
  let rows := find_all {| names := [u "tr"]; class_ := None |} table in
  foldl (fun table_data row =>
           let cols := find_all {| names := [u "td"; u "th"]; class_ := None |} row in
           let cols := (fun col => strip (text col)) <$> cols in
           table_data ++ [cols])
        [] rows.

(** ** pandas: the data frame built from a list of rows *)

(** A frame of [object] columns: the column labels and the rows of values;
    a missing value is [None]. *)
Record DataFrame := { columns : list pystr; df_rows : list (list (option pystr)) }.

(** [lib.to_object_array]: the rows as a two-dimensional array as wide as
    the longest row, shorter rows filled with [None]. *)
Definition to_object_array (rows : list (list pystr))
  : list (list (option pystr)) :=
  let k := max_list (length <$> rows) in
  (fun row => (Some <$> row) ++ replicate (k - length row)%nat None) <$> rows.

(** [pd.DataFrame(data, columns=cols)] for a list of lists [data]. *)
Definition pd_DataFrame (data : list (list pystr)) (cols : list pystr)
  : result DataFrame :=
  match data with
  | [] => Ok {| columns := cols; df_rows := [] |}
  | _ =>
      let k := max_list (length <$> data) in
      if decide (length cols = k) then
        Ok {| columns := cols; df_rows := to_object_array data |}
      else
        Raise (Exn ValueError
                 (str_int (len cols) ++ u " columns passed, passed data had "
                  ++ str_int (Z.of_nat k) ++ u " columns"))
  end.

(** [df.itertuples(index=False)]: the zip of the column arrays, which is
    empty for a frame without columns. *)
Definition itertuples (df : DataFrame) : list (list (option pystr)) :=
  match columns df with
  | [] => []
  | _ => df_rows df
  end.

(** [dataframe_to_rows(df, index=False, header=True)] *)
Definition dataframe_to_rows (df : DataFrame) : list (list (option pystr)) :=
  (Some <$> columns df) :: itertuples df.

(** ** openpyxl: cells, worksheets, workbooks *)

Record Font := { bold : bool }.
Record Alignment := { horizontal : option pystr }.

Record Cell := {
  value : option pystr;
  font : Font;
  alignment : Alignment
}.

(** A freshly created cell. *)
Definition new_cell : Cell :=
  {| value := None; font := {| bold := false |};
     alignment := {| horizontal := None |} |}.

Record ColumnDimension := { width : Z }.

Record Worksheet := {
  title : pystr;
  cells : gmap (Z * Z) Cell;
  current_row : Z;
  column_dimensions : gmap pystr ColumnDimension
}.

Record Workbook := { worksheets : list Worksheet; active : nat }.

Definition with_cells (ws : Worksheet) (f : gmap (Z * Z) Cell -> gmap (Z * Z) Cell)
  : Worksheet :=
  {| title := title ws; cells := f (cells ws); current_row := current_row ws;
     column_dimensions := column_dimensions ws |}.

(** [ILLEGAL_CHARACTERS_RE]: the control characters a cell refuses. *)
Definition illegal_character (c : N) : bool :=
  ((c <=? 8) || (11 <=? c) && (c <=? 12) || (14 <=? c) && (c <=? 31))%N.

(** [Cell.check_string]: cut to 32767 characters, refuse control
    characters. *)
Definition check_string (v : pystr) : result pystr :=
  let v := take (Z.to_nat 32767) v in
  if existsb illegal_character v then
    Raise (Exn IllegalCharacterError (v ++ u " cannot be used in worksheets."))
  else Ok v.

(** [Worksheet._get_cell]: the cell at a coordinate, created when absent. *)
Definition get_cell (ws : Worksheet) (row column : Z) : result Worksheet :=
  if negb ((0 <? row) && (row <? 1048577)) then
    Raise (Exn ValueError
             (u "Row numbers must be between 1 and 1048576. Row number supplied was "
              ++ str_int row))
  else
    match cells ws !! (row, column) with
    | Some _ => Ok ws
    | None =>
        Ok {| title := title ws;
              cells := <[(row, column) := new_cell]> (cells ws);
              current_row := Z.max row (current_row ws);
              column_dimensions := column_dimensions ws |}
    end.

(** [ws.cell(row=row, column=column, value=v)]; the returned cell is the one
    stored at [(row, column)]. *)
Definition ws_cell (ws : Worksheet) (row column : Z) (v : option pystr)
  : result Worksheet :=
  if (row <? 1) || (column <? 1) then
    Raise (Exn ValueError (u "Row or column values must be at least 1"))
  else
    (let* ws := get_cell ws row column in
     match v with
     | None => Ok ws
     | Some s =>
         let* s' := check_string s in
         Ok (with_cells ws (alter (fun c => {| value := Some s'; font := font c;
                                                alignment := alignment c |})
                              (row, column)))
     end)%res.

(** [max(l, default=d)] *)
Definition py_max (l : list Z) (default : Z) : Z :=
  match l with
  | [] => default
  | x :: l' => foldl Z.max x l'
  end.

(** [ws.max_row] and [ws.max_column]: 1 for a sheet without cells, else
    the largest row (column) of a cell. *)
Definition max_row (ws : Worksheet) : Z :=
  py_max ((map_to_list (cells ws)).*1.*1) 1.

Definition max_column (ws : Worksheet) : Z :=
  py_max ((map_to_list (cells ws)).*1.*2) 1.

(** [range(a, b)] *)
Definition range (a b : Z) : list Z := seqZ a (b - a).

(** One pass of [Worksheet._cells_by_col]: [ws.cell(row=row, column=column)]
    is appended to the column. *)
Definition cells_by_col_step (column : Z) (st : Worksheet * list Cell) (row : Z)
  : result (Worksheet * list Cell) :=
  let '(ws, col) := st in
  (let* ws := ws_cell ws row column None in
   match cells ws !! (row, column) with
   | Some c => Ok (ws, col ++ [c])
   | None => Raise (Exn OtherError [])
   end)%res.

(** One column of [ws.columns]: the cells of the rows [min_row..max_row],
    created when absent. *)
Definition cells_by_col (ws : Worksheet) (min_row max_row column : Z)
  : result (Worksheet * list Cell) :=
  for_each (cells_by_col_step column) (range min_row (max_row + 1)) (ws, []).

(** Truth value of a cell value: [None] and the empty string are false. *)
Definition truthy (v : option pystr) : bool :=
  match v with
  | None | Some [] => false
  | Some _ => true
  end.

(** [len(str(v))] *)
Definition len_str (v : option pystr) : Z :=
  match v with
  | None => 4
  | Some s => len s
  end.

Fixpoint column_letter_loop (fuel : nat) (col_idx : Z) (letters : pystr) : pystr :=
  match fuel with
  | O => letters
  | S fuel' =>
      if 0 <? col_idx then
        let q := col_idx / 26 in
        let remainder := col_idx mod 26 in
        if remainder =? 0 then
          column_letter_loop fuel' (q - 1) (letters ++ [Z.to_N (26 + 64)])
        else
          column_letter_loop fuel' q (letters ++ [Z.to_N (remainder + 64)])
      else letters
  end.

(** The letters of a column index; every pass of the loop divides by 26, so
    [log2 col_idx + 1] passes are enough. *)
Definition column_letter (col_idx : Z) : pystr :=
  reverse (column_letter_loop (S (Z.to_nat (Z.log2 col_idx))) col_idx []).

(** [get_column_letter(col_idx)] *)
Definition get_column_letter (col_idx : Z) : result pystr :=
  if (1 <=? col_idx) && (col_idx <=? 18278) then Ok (column_letter col_idx)
  else Raise (Exn ValueError (u "Invalid column index " ++ str_int col_idx)).

(** [column_index_from_string(letters)] *)
Definition column_index_from_string (letters : pystr) : Z :=
  foldl (fun acc c => acc * 26 + (Z.of_N c - 64)) 0 letters.

(** [Workbook()]: one empty sheet named [Sheet], which is the active one. *)
Definition Workbook_new : Workbook :=
  {| worksheets := [ {| title := u "Sheet"; cells := ∅; current_row := 0;
                        column_dimensions := ∅ |} ];
     active := 0%nat |}.

(** ** Spreadsheet Writer *)

(** [ws] is the workbook's active sheet: what is done to [ws] is seen
    through [wb]. The pair returned here is the workbook and the current
    value of that sheet; [set_active] stores the sheet's later value back. *)
Definition set_active (wb : Workbook) (ws : Worksheet) : Workbook :=
  {| worksheets := <[active wb := ws]> (worksheets wb); active := active wb |}.

Definition create_excel_workbook : Workbook * Worksheet :=
  let wb := Workbook_new in
  match worksheets wb !! active wb with
  | Some ws =>
      let ws := {| title := u "Table Data"; cells := cells ws;
                   current_row := current_row ws;
                   column_dimensions := column_dimensions ws |} in
      (set_active wb ws, ws)
  | None => (wb, {| title := u "Table Data"; cells := ∅; current_row := 0;
                    column_dimensions := ∅ |})
  end.

Definition apply_cell_formatting (cell : Cell) (row_idx : Z) : Cell :=
  if row_idx =? 1 then
    {| value := value cell; font := {| bold := true |};
       alignment := {| horizontal := Some (u "center") |} |}
  else
    {| value := value cell; font := font cell;
       alignment := {| horizontal := Some (u "left") |} |}.

(** The body of the inner loop of [add_data_to_sheet]: write the cell and
    format it. *)
Definition add_data_cell (r_idx : Z) (ws : Worksheet) (cv : Z * option pystr)
  : result Worksheet :=
  let '(c_idx, v) := cv in
  (let* ws := ws_cell ws r_idx c_idx v in
   Ok (with_cells ws (alter (fun cell => apply_cell_formatting cell r_idx)
                        (r_idx, c_idx))))%res.

(** The body of the outer loop of [add_data_to_sheet]. *)
Definition add_data_row (ws : Worksheet) (rr : Z * list (option pystr))
  : result Worksheet :=
  let '(r_idx, row) := rr in
  for_each (add_data_cell r_idx) (enumerate row 1) ws.

Definition add_data_to_sheet (ws : Worksheet) (df : DataFrame) : result Worksheet :=
  for_each add_data_row (enumerate (dataframe_to_rows df) 1) ws.

Definition with_dims (ws : Worksheet) (d : gmap pystr ColumnDimension)
  : Worksheet :=
  {| title := title ws; cells := cells ws; current_row := current_row ws;
     column_dimensions := d |}.

(** The body of the loop of [adjust_column_widths], for the column [col] of
    [ws.columns] with index [column]. *)
Definition adjust_column (max_r : Z) (ws : Worksheet) (column : Z)
  : result Worksheet :=
  (let* (ws, col) := cells_by_col ws 1 max_r column in
   let max_length :=
     py_max (len_str <$> filter (fun v => truthy v = true) (value <$> col)) 0 in
   let adjusted_width := max_length + 2 in
   let* column_letter :=
     match col with
     | _ :: _ => get_column_letter column
     | [] => Raise (Exn IndexError (u "tuple index out of range"))
     end in
   Ok (with_dims ws (<[column_letter := {| width := adjusted_width |}]>
                       (column_dimensions ws))))%res.

(** [ws.columns] is empty for a sheet no cell was ever added to; else it
    runs over the columns [1..max_column], each with the rows
    [1..max_row]. *)
Definition adjust_column_widths (ws : Worksheet) : result Worksheet :=
  if current_row ws =? 0 then Ok ws
  else
    let max_col := max_column ws in
    let max_r := max_row ws in
    for_each (adjust_column max_r) (range 1 (max_col + 1)) ws.

(** ** The world: printed lines, files, and which paths can be written *)

Record World := {
  stdout : list pystr;
  files : gmap pystr Workbook;
  writable : pystr -> bool
}.

Definition M (A : Type) : Type := World -> result A * World.

Definition ret {A} (a : A) : M A := fun w => (Ok a, w).

Definition bindM {A B} (m : M A) (k : A -> M B) : M B :=
  fun w =>
    match m w with
    | (Ok a, w') => k a w'
    | (Raise e, w') => (Raise e, w')
    end.

Definition lift {A} (r : result A) : M A := fun w => (r, w).

Declare Scope world_scope.
Delimit Scope world_scope with world.
Notation "'let!' x := m 'in' k" := (bindM m (fun x => k))
  (at level 10, x pattern, m at level 100, k at level 200) : world_scope.

(** [print(line)] *)
Definition print (line : pystr) : M unit :=
  fun w => (Ok tt, {| stdout := stdout w ++ [line]; files := files w;
                      writable := writable w |}).

(** A code point the file system encoding cannot encode (UTF-8 with the
    [surrogateescape] handler, as on POSIX): a surrogate outside
    U+DC80..U+DCFF. *)
Definition unencodable (c : N) : bool :=
  ((55296 <=? c) && (c <=? 57343) && negb ((56448 <=? c) && (c <=? 56575)))%N.

(** The exception of [open(filename, mode)] for a path that cannot be
    opened: the name is encoded first, then checked for a NUL, then handed
    to the system.  Of the message of the [UnicodeEncodeError] only the
    reason is kept, of that of the [OSError] only the file name. *)
Definition open_error (filename : pystr) : exn :=
  if existsb unencodable filename then
    Exn UnicodeEncodeError (u "surrogates not allowed")
  else if existsb (N.eqb 0) filename then
    Exn ValueError (u "embedded null byte")
  else Exn OSError filename.

(** [wb.save(filename)]: [ZipFile(filename, 'w')] opens the path, and the
    file is created or overwritten; a path that cannot be opened raises the
    exception of [open].  [writable w filename] says that the open
    succeeds. *)
Definition save (wb : Workbook) (filename : pystr) : M unit :=
  fun w =>
    if writable w filename then
      (Ok tt, {| stdout := stdout w; files := <[filename := wb]> (files w);
                 writable := writable w |})
    else (Raise (open_error filename), w).

(** [l[i]] *)
Definition getitem {A} (l : list A) (i : nat) : result A :=
  match l !! i with
  | Some x => Ok x
  | None => Raise (Exn IndexError (u "list index out of range"))
  end.

Definition export_to_excel (data : list (list pystr)) (filename : pystr) : M unit :=
  (let! wb := lift (let* rest := Ok (drop 1 data) in
                    let* header := getitem data 0 in
                    let* df := pd_DataFrame rest header in
                    let (wb, ws) := create_excel_workbook in
                    let* ws := add_data_to_sheet ws df in
                    let* ws := adjust_column_widths ws in
                    Ok (set_active wb ws))%res in
   save wb filename)%world.

(** ** Page Fetcher and the pipeline *)

Record Response := {
  status_code : Z;
  reason : pystr;
  resp_url : pystr;
  resp_text : pystr
}.

(** [response.raise_for_status()] *)
Definition raise_for_status (r : Response) : result unit :=
  if (400 <=? status_code r) && (status_code r <? 500) then
    Raise (Exn HTTPError (str_int (status_code r) ++ u " Client Error: "
                          ++ reason r ++ u " for url: " ++ resp_url r))
  else if (500 <=? status_code r) && (status_code r <? 600) then
    Raise (Exn HTTPError (str_int (status_code r) ++ u " Server Error: "
                          ++ reason r ++ u " for url: " ++ resp_url r))
  else Ok tt.

(** The [headers] dictionary of [fetch_webpage]. *)
Definition browser_headers : list (pystr * pystr) :=
  [(u "User-Agent",
    u "Mozilla/5.0 (Windows NT 10.0; Win64; x64) AppleWebKit/537.36 (KHTML, like Gecko) Chrome/91.0.4472.124 Safari/537.36")].

Section Pipeline.

(** [requests.get(url, headers=headers)]: a response, or an exception. *)
Variable requests_get : pystr -> list (pystr * pystr) -> result Response.

(** [BeautifulSoup(html_content, 'html.parser')]: the root of the parsed
    document. *)
Variable BeautifulSoup : pystr -> PageElement.

Definition fetch_webpage (url : pystr) : M (option pystr) :=
  let headers := browser_headers in
  match (let* response := requests_get url headers in
         let* _ := raise_for_status response in
         Ok (resp_text response))%res with
  | Ok t => ret (Some t)
  | Raise e =>
      if is_RequestException (exn_cls e) then
        (let! _ := print (u "Failed to fetch the web page: " ++ exn_msg e) in
         ret None)%world
      else lift (Raise e)
  end.

Definition parse_html (html_content : pystr) : PageElement :=
  let soup := BeautifulSoup html_content in
  soup.

Definition main_url : pystr :=
  u "https://www.ine.es/dyngs/INEbase/es/operacion.htm?c=Estadistica_C&cid=1254736176802&menu=ultiDatos&idp=1254735976607".

Definition main : M unit :=
  let url := main_url in
  let table_class := u "tablaCat" in
  (let! html_content := fetch_webpage url in
   match html_content with
   | Some ((_ :: _) as html_content) =>
       let soup := parse_html html_content in
       let table := find {| names := [u "table"]; class_ := Some table_class |} soup in
       match table with
       | Some table =>
           let! _ := print (u "Table found!") in
           let data := extract_table_data table in
           let! _ := export_to_excel data (u "table_data.xlsx") in
           print (u "Data has been exported to table_data.xlsx")
       | None => print (u "Table not found.")
       end
   | _ => ret tt
   end)%world.

End Pipeline.

(** ** The other script, [src/scraper.py] *)

Section ScraperScript.

(** The response object of [urlopen]. *)
Variable HTTPResponse : Type.

(** [urlopen(url)]: a response, or an exception. *)
Variable urlopen : pystr -> result HTTPResponse.

(** [page.read()]: the bytes of the body, or an exception. *)
Variable read : HTTPResponse -> result (list N).

(** [bytes.decode("utf-8")]: the text, or [UnicodeDecodeError]. *)
Variable decode_utf8 : list N -> result pystr.

(** [BeautifulSoup(html, "html.parser")] *)
Variable BeautifulSoup : pystr -> PageElement.

(** The statements of the script, top to bottom; its [url] is the address
    [main] uses. *)
Definition scraper : M unit :=
  let url := main_url in
  (let! page := lift (urlopen url) in
   let! html := lift (let* raw := read page in decode_utf8 raw)%res in
   let soup := BeautifulSoup html in
   print (text soup))%world.

End ScraperScript.

(** * Vocabulary of the specifications *)

(** Reassociate list concatenations to the right. *)
Ltac norm_app := repeat (progress (simpl; rewrite <- ?app_assoc)).

Definition tr_filter : SoupStrainer := {| names := [u "tr"]; class_ := None |}.
Definition cell_filter : SoupStrainer :=
  {| names := [u "td"; u "th"]; class_ := None |}.

(** The cells of one row, as the loop body of [extract_table_data]
    computes them. *)
Definition row_cells (row : PageElement) : list pystr :=
  (fun col => strip (text col)) <$> find_all cell_filter row.

Definition table_locator (table_class : pystr) : SoupStrainer :=
  {| names := [u "table"]; class_ := Some table_class |}.

(** The element has the class [c]: one of the tokens of its [class]
    attribute is [c], or the tokens joined by spaces are [c]; an element
    without the attribute only has the empty class. *)
Definition has_class (attrs : list (pystr * AttrValue)) (c : pystr) : Prop :=
  match attrs_get attrs (u "class") with
  | Some (AttrList toks) => c ∈ toks \/ join (u " ") toks = c
  | Some (AttrStr s) => s = c
  | None => c = []
  end.

Definition table_with_class (c : pystr) (e : PageElement) : Prop :=
  exists attrs contents, e = Tag (u "table") attrs contents /\ has_class attrs c.

(** [l[i]] for an [int] index that is not negative. *)
Definition lookupZ {A} (l : list A) (i : Z) : option A :=
  if decide (0 <= i) then l !! Z.to_nat i else None.

(** The value is accepted by [check_string]. *)
Definition legal (v : option pystr) : Prop :=
  match v with
  | Some s => existsb illegal_character (take (Z.to_nat 32767) s) = false
  | None => True
  end.

(** The value a cell keeps: the first 32767 characters. *)
Definition stored (v : option pystr) : option pystr :=
  take (Z.to_nat 32767) <$> v.

(** The cell at row [r] after [v] was written to it and it was formatted;
    [old] is the cell that was there before, if any. *)
Definition written (r : Z) (v : option pystr) (old : option Cell) : Cell :=
  let c := default new_cell old in
  apply_cell_formatting
    match v with
    | None => c
    | Some s => {| value := stored (Some s); font := font c;
                   alignment := alignment c |}
    end r.

Definition put (r c : Z) (v : option pystr) (ws : Worksheet) : Worksheet :=
  {| title := title ws;
     cells := <[(r, c) := written r v (cells ws !! (r, c))]> (cells ws);
     current_row := match cells ws !! (r, c) with
                    | Some _ => current_row ws
                    | None => Z.max r (current_row ws)
                    end;
     column_dimensions := column_dimensions ws |}.

Definition put_row (r c0 : Z) (row : list (option pystr)) (ws : Worksheet)
  : Worksheet :=
  foldl (fun ws cv => put r cv.1 cv.2 ws) ws (enumerate row c0).

Definition put_rows (r0 : Z) (rows : list (list (option pystr))) (ws : Worksheet)
  : Worksheet :=
  foldl (fun ws rr => put_row rr.1 1 rr.2 ws) ws (enumerate rows r0).

(** What [add_data_to_sheet] needs of one row to end normally. *)
Definition row_ok (rr : Z * list (option pystr)) : Prop :=
  Forall legal rr.2 /\ (rr.2 <> [] -> 1 <= rr.1 < 1048577).

(** Every cell sits in a row between 1 and [current_row]. *)
Definition rows_bounded (ws : Worksheet) : Prop :=
  forall r c, is_Some (cells ws !! (r, c)) -> 1 <= r <= current_row ws.

(** [f] holds of the [n] integers from [j] on. *)
Fixpoint holds_upto (n : nat) (j : Z) (f : Z -> bool) : bool :=
  match n with
  | O => true
  | S n' => f j && holds_upto n' (j + 1) f
  end.

(** The cells of [ws] are exactly those of the rows [1..m] and the columns
    [1..n]. *)
Definition rect (ws : Worksheet) (m n : Z) : Prop :=
  forall r c, is_Some (cells ws !! (r, c)) <-> 1 <= r <= m /\ 1 <= c <= n.

(** The cells of column [j], rows [1..m]. *)
Definition column_cells (ws : Worksheet) (m j : Z) : list Cell :=
  omap (fun r => cells ws !! (r, j)) (seqZ 1 m).

(** The width [adjust_column_widths] gives to column [j]. *)
Definition column_width (ws : Worksheet) (m j : Z) : Z :=
  py_max (len_str <$> filter (fun v => truthy v = true)
                        (value <$> column_cells ws m j)) 0 + 2.

Definition set_width (ws : Worksheet) (m : Z)
    (d : gmap pystr ColumnDimension) (j : Z) : gmap pystr ColumnDimension :=
  <[column_letter j := {| width := column_width ws m j |}]> d.

(** The column dimensions after [adjust_column_widths] on a full sheet. *)
Definition widths (ws : Worksheet) (m n : Z) : gmap pystr ColumnDimension :=
  foldl (set_width ws m) (column_dimensions ws) (seqZ 1 n).

(** The rows [dataframe_to_rows] yields for [pd.DataFrame(rest,
    columns=header)]. *)
Definition sheet_rows (header : list pystr) (rest : list (list pystr))
  : list (list (option pystr)) :=
  (Some <$> header) :: match header with
                       | [] => []
                       | _ => to_object_array rest
                       end.

(** The frame can be built: there are no data rows, or the longest data
    row is as long as the header. *)
Definition frame_ok (header : list pystr) (rest : list (list pystr)) : Prop :=
  rest = [] \/ max_list (length <$> rest) = length header.

(** What [export_to_excel] does before it saves. *)
Definition build_workbook (data : list (list pystr)) : result Workbook :=
  (let* rest := Ok (drop 1 data) in
   let* header := getitem data 0 in
   let* df := pd_DataFrame rest header in
   let (wb, ws) := create_excel_workbook in
   let* ws := add_data_to_sheet ws df in
   let* ws := adjust_column_widths ws in
   Ok (set_active wb ws))%res.

Definition wb0 : Workbook := create_excel_workbook.1.
Definition sheet0 : Worksheet := create_excel_workbook.2.

(** The sheet of the saved workbook, for the grid [header :: rest]. *)
Definition exported_sheet (header : list pystr) (rest : list (list pystr))
  : Worksheet :=
  let rows := sheet_rows header rest in
  let ws := put_rows 1 rows sheet0 in
  match header with
  | [] => ws
  | _ => with_dims ws (widths ws (len rows) (len header))
  end.

(** The grid [header :: rest] goes through every step of the writer. *)
Definition exportable (header : list pystr) (rest : list (list pystr)) : Prop :=
  frame_ok header rest /\
  Forall row_ok (enumerate (sheet_rows header rest) 1) /\
  len header <= 18278.

(** The sheet stored in the file [filename]. *)
Definition written_sheet (w : World) (filename : pystr) : option Worksheet :=
  wb ← files w !! filename; worksheets wb !! active wb.

(** The length of a cell value as text; an absent value has none. *)
Definition len_value (v : option pystr) : Z :=
  match v with
  | Some s => len s
  | None => 0
  end.

(** A world in which nothing was printed or written yet, and every path
    can be written. *)
Definition empty_world : World :=
  {| stdout := []; files := ∅; writable := fun _ => true |}.

(** The string has none of the control characters a cell refuses. *)
Definition clean (s : pystr) : Prop :=
  Forall (fun c => illegal_character c = false) s.



Definition grid_AB : list (list pystr) :=
  [[u "A"; u "B"]; [u "1"; u "2"]; [u "33"; u "4"]].

(** A bold, centered cell and a left-aligned cell. *)
Definition header_cell (s : pystr) : Cell :=
  {| value := Some s; font := {| bold := true |};
     alignment := {| horizontal := Some (u "center") |} |}.

Definition body_cell (s : pystr) : Cell :=
  {| value := Some s; font := {| bold := false |};
     alignment := {| horizontal := Some (u "left") |} |}.

(** The world after one more printed line. *)
Definition printed (w : World) (line : pystr) : World :=
  {| stdout := stdout w ++ [line]; files := files w; writable := writable w |}.

(** The request for [url] fails: the response has a status from 400 to
    599, or the request raises an exception of the [RequestException]
    family. *)
Definition fetch_fails
    (requests_get : pystr -> list (pystr * pystr) -> result Response)
    (url : pystr) : Prop :=
  (exists r, requests_get url browser_headers = Ok r /\ 400 <= status_code r < 600) \/
  (exists e, requests_get url browser_headers = Raise e /\
             is_RequestException (exn_cls e) = true).

Definition xlsx : pystr := u "table_data.xlsx".



(** A table of two rows and two columns with padded cell texts. *)
Definition small_table : PageElement :=
  Tag (u "table") [(u "class", AttrList [u "tablaCat"])]
    [Tag (u "tr") []
       [Tag (u "th") [] [Str NavigableString (u " Year ")];
        Tag (u "th") [] [Str NavigableString (u "Value")]];
     Tag (u "tr") []
       [Tag (u "td") [] [Str NavigableString (u "  2020")];
        Tag (u "td") [] [Tag (u "b") [] [Str NavigableString (u "7 ")]]]].

(** A server that answers every request with the given status and body. *)
Definition server (status : Z) (body : pystr) (url : pystr)
    (headers : list (pystr * pystr)) : result Response :=
  Ok {| status_code := status; reason := u "-"; resp_url := url; resp_text := body |}.

(** A parser that finds a single paragraph in every page. *)
Definition one_paragraph (html : pystr) : PageElement :=
  Tag (u "[document]") [] [Tag (u "p") [] [Str NavigableString html]].

(** A page whose only table has the class but no rows. *)
Definition rowless_page (html : pystr) : PageElement :=
  Tag (u "[document]") []
    [Tag (u "table") [(u "class", AttrList [u "tablaCat"])] []].

(** A table with a nested table in its second cell. *)
Definition inner_table : PageElement :=
  Tag (u "table") []
    [Tag (u "tr") [] [Tag (u "td") [] [Str NavigableString (u "x")];
                      Tag (u "td") [] [Str NavigableString (u "y")]]].

Definition outer_cell : PageElement :=
  Tag (u "td") [] [Str NavigableString (u " b "); inner_table].

Definition outer_table : PageElement :=
  Tag (u "table") []
    [Tag (u "tr") [] [Tag (u "td") [] [Str NavigableString (u "a")]; outer_cell]].

(** The text a child contributes to the text of its parent. *)
Definition child_text (c : PageElement) : pystr :=
  match c with
  | Str cls s => if interesting cls then s else []
  | Tag _ _ _ => text c
  end.

(** The grid passes every check of the writer: it has a header row, the
    frame can be built, no cell has a control character among its first
    32767 characters, and the sheet's limits of 1048576 rows and 18278
    columns are kept. *)
Definition writer_accepts (data : list (list pystr)) : Prop :=
  exists header rest,
    data = header :: rest /\
    frame_ok header rest /\
    Forall (Forall (fun s => legal (Some s))) data /\
    (header <> [] -> len data <= 1048576) /\
    len header <= 18278.

(** The lines [main] can print. *)
Definition msg_found : pystr := u "Table found!".
Definition msg_exported : pystr := u "Data has been exported to table_data.xlsx".
Definition msg_failed (msg : pystr) : pystr :=
  u "Failed to fetch the web page: " ++ msg.

(** The request for [url] brings the body [html]: there is a response and
    its status is not one from 400 to 599. *)
Definition fetched
    (requests_get : pystr -> list (pystr * pystr) -> result Response)
    (url html : pystr) : Prop :=
  exists r, requests_get url browser_headers = Ok r /\
            ~ (400 <= status_code r < 600) /\ resp_text r = html.

(** The sheet and the world after [grid_AB] is exported from the empty
    world. *)
Definition sheet_AB : Worksheet :=
  exported_sheet [u "A"; u "B"] [[u "1"; u "2"]; [u "33"; u "4"]].

Definition world_AB : World :=
  {| stdout := []; files := {[ xlsx := set_active wb0 sheet_AB ]};
     writable := fun _ => true |}.

(** A row whose first cell holds only a space. *)
Definition blank_row : PageElement :=
  Tag (u "tr") []
    [Tag (u "td") [] [Str NavigableString (u " ")];
     Tag (u "td") [] [Str NavigableString (u "x")]].

(** The row of [outer_table]. *)
Definition outer_row : PageElement :=
  Tag (u "tr") [] [Tag (u "td") [] [Str NavigableString (u "a")]; outer_cell].

(** A parser that finds [small_table] in every page. *)
Definition small_page (html : pystr) : PageElement :=
  Tag (u "[document]") [] [small_table].

(** The text read off the tree itself: a plain or CDATA string counts, any
    other string does not, and an element gives what its children give, in
    order. *)
Fixpoint plain_text (e : PageElement) : pystr :=
  match e with
  | Str NavigableString s | Str CData s => s
  | Str _ _ => []
  | Tag _ _ cs => concat (plain_text <$> cs)
  end.

(** The tag names whose strings the tree builder gives a class of their
    own. *)
Definition string_containers : list pystr :=
  [u "rt"; u "rp"; u "style"; u "script"; u "template"].

(** A cell with a plain string, a comment, a nested element and a script. *)
Definition mixed_cell : PageElement :=
  Tag (u "td") []
    [Str NavigableString (u "a"); Str Comment (u "c");
     Tag (u "b") [] [Str NavigableString (u "d")];
     Tag (u "script") [] [Str Script (u "var x;")]].

(** The row of [inner_table]. *)
Definition inner_row : PageElement :=
  Tag (u "tr") [] [Tag (u "td") [] [Str NavigableString (u "x")];
                   Tag (u "td") [] [Str NavigableString (u "y")]].



(** * Properties *)

(** ** Generic facts about the document tree *)

Lemma PageElement_ind' (P : PageElement -> Prop) :
  (forall name attrs cs, Forall P cs -> P (Tag name attrs cs)) ->
  (forall cls s, P (Str cls s)) ->
  forall e, P e.
Proof.
  intros Htag Hstr. fix IH 1. intros [name attrs cs | cls s]; [|apply Hstr].
  apply Htag. induction cs as [|c cs IHcs]; constructor; [apply IH | apply IHcs].
Qed.

(** The descendants of a descendant sit in one block of the descendants. *)
Lemma descendants_infix (x y : PageElement) :
  y ∈ descendants x ->
  exists l1 l2, descendants x = l1 ++ y :: descendants y ++ l2.
Proof.
  induction x as [name attrs cs IH | cls s] using PageElement_ind'; simpl.
  - induction IH as [|c cs Hc _ IHcs]; simpl; [by intros ?%elem_of_nil|].
    rewrite elem_of_cons, elem_of_app. intros [-> | [Hy | Hy]].
    + by exists [], (flat_map (fun c => c :: descendants c) cs).
    + destruct (Hc Hy) as (l1 & l2 & ->).
      exists (c :: l1), (l2 ++ flat_map (fun c => c :: descendants c) cs).
      by norm_app.
    + destruct (IHcs Hy) as (l1 & l2 & ->).
      exists (c :: descendants c ++ l1), l2. by norm_app.
  - by intros ?%elem_of_nil.
Qed.

Lemma descendants_trans (x y z : PageElement) :
  y ∈ descendants x -> z ∈ descendants y -> z ∈ descendants x.
Proof.
  intros (l1 & l2 & ->)%descendants_infix Hz.
  rewrite elem_of_app, elem_of_cons, elem_of_app. auto.
Qed.

(** Without a limit the search loop is a filter. *)
Lemma find_all_loop_filter st generator results :
  find_all_loop st None generator results
  = results ++ filter (fun e => search st e = true) generator.
Proof.
  revert results. induction generator as [|i g IH]; intros results; simpl.
  - by rewrite app_nil_r.
  - rewrite filter_cons. destruct (search st i) eqn:Hi.
    + rewrite IH, decide_True by done. by rewrite <- app_assoc.
    + rewrite IH, decide_False by done. done.
Qed.

Lemma find_all_filter st e :
  find_all st e = filter (fun d => search st d = true) (descendants e).
Proof. unfold find_all. by rewrite find_all_loop_filter. Qed.

(** With limit 1 the loop stops at the first match. *)
Lemma find_all_loop_first st generator :
  match find_all_loop st (Some 1%nat) generator [] with
  | [] => Forall (fun e => search st e = false) generator
  | r :: rest =>
      rest = [] /\ search st r = true /\
      exists l1 l2, generator = l1 ++ r :: l2 /\
                    Forall (fun e => search st e = false) l1
  end.
Proof.
  induction generator as [|i g IH]; simpl; [constructor|].
  destruct (search st i) eqn:Hi; simpl.
  - split; [done|]. split; [done|]. by exists [], g.
  - destruct (find_all_loop st (Some 1%nat) g []) as [|r rest].
    + by constructor.
    + destruct IH as (-> & Hr & l1 & l2 & -> & Hl1).
      split; [done|]. split; [done|]. exists (i :: l1), l2. by split; [|constructor].
Qed.

Lemma foldl_snoc_fmap {A B} (f : A -> B) (l : list A) (acc : list B) :
  foldl (fun acc x => acc ++ [f x]) acc l = acc ++ (f <$> l).
Proof.
  revert acc. induction l as [|x l IH]; intros acc; simpl.
  - by rewrite app_nil_r.
  - rewrite IH. by rewrite <- app_assoc.
Qed.

Lemma extract_table_data_fmap table :
  extract_table_data table = row_cells <$> find_all tr_filter table.
Proof. apply (foldl_snoc_fmap row_cells). Qed.

(** ** Stripping *)

Lemma lstrip_spec s :
  exists a, s = a ++ lstrip s /\ Forall (fun c => isspace c = true) a /\
            forall c, head (lstrip s) = Some c -> isspace c = false.
Proof.
  induction s as [|c s (a & Hs & Ha & Hh)]; simpl.
  - exists []. by repeat split.
  - destruct (isspace c) eqn:Hc.
    + exists (c :: a). split; [by rewrite Hs at 1|]. split; [by constructor|done].
    + exists []. repeat split; [constructor|]. simpl. by intros ? [= <-].
Qed.

Lemma rstrip_spec s :
  exists b, s = rstrip s ++ b /\ Forall (fun c => isspace c = true) b /\
            forall c, last (rstrip s) = Some c -> isspace c = false.
Proof.
  unfold rstrip. destruct (lstrip_spec (reverse s)) as (a & Hs & Ha & Hh).
  exists (reverse a). split; [|split].
  - rewrite <- reverse_app, <- Hs. by rewrite reverse_involutive.
  - by apply Forall_reverse.
  - intros c. rewrite last_reverse. apply Hh.
Qed.

Lemma strip_spec s :
  exists a b, s = a ++ strip s ++ b /\
              Forall (fun c => isspace c = true) a /\
              Forall (fun c => isspace c = true) b /\
              (forall c, head (strip s) = Some c -> isspace c = false) /\
              (forall c, last (strip s) = Some c -> isspace c = false).
Proof.
  unfold strip. destruct (lstrip_spec s) as (a & Hs & Ha & Hh).
  destruct (rstrip_spec (lstrip s)) as (b & Hl & Hb & Hlast).
  exists a, b. split; [by rewrite <- Hl|]. repeat split; try done.
  intros c Hc. apply Hh. rewrite Hl.
  destruct (rstrip (lstrip s)); [done|]. done.
Qed.

(** ** Text of nested elements *)

Lemma join_nil_concat (l : list pystr) : join [] l = concat l.
Proof.
  induction l as [|x l IH]; [done|]. destruct l as [|y l].
  - simpl. by rewrite app_nil_r.
  - change (join [] (x :: y :: l)) with (x ++ [] ++ join [] (y :: l)).
    by rewrite IH.
Qed.

Lemma text_descendant (x y : PageElement) :
  y ∈ descendants x -> exists a b, text x = a ++ text y ++ b.
Proof.
  intros (l1 & l2 & Hx)%descendants_infix.
  unfold text, all_strings. rewrite Hx, !join_nil_concat.
  rewrite flat_map_app. simpl. rewrite flat_map_app, !concat_app.
  eexists _, _. rewrite <- app_assoc. reflexivity.
Qed.

(** ** C7: the Table Locator *)

Lemma matches_attr_has_class attrs c :
  matches_attr (attrs_get attrs (u "class")) c = true <-> has_class attrs c.
Proof.
  unfold has_class. destruct (attrs_get attrs (u "class")) as [[s|toks]|]; simpl.
  - by rewrite bool_decide_eq_true.
  - rewrite orb_true_iff, bool_decide_eq_true, existsb_exists.
    split; (intros [H|H]; [left|by right]).
    + destruct H as (t & Ht%list_elem_of_In & ->%bool_decide_eq_true). done.
    + exists c. rewrite bool_decide_eq_true. by rewrite <- list_elem_of_In.
  - by rewrite bool_decide_eq_true.
Qed.

Lemma search_table_locator c e :
  search (table_locator c) e = true <-> table_with_class c e.
Proof.
  unfold table_with_class. destruct e as [name attrs cs|cls s]; simpl.
  - rewrite orb_false_r, andb_true_iff, bool_decide_eq_true, matches_attr_has_class.
    split.
    + intros [-> H]. by exists attrs, cs.
    + intros (attrs' & cs' & [= -> -> ->] & H). done.
  - split; [done|]. by intros (? & ? & ? & _).
Qed.

Lemma search_table_locator_false c e :
  search (table_locator c) e = false <-> ~ table_with_class c e.
Proof. rewrite <- search_table_locator. by destruct (search _ e). Qed.

(** C7: when the document holds a table element with the target class, the
    locator returns the first such element in document order (no element
    before it matches); it returns nothing exactly when no element of the
    document matches. *)
Theorem locator_first_match (table_class : pystr) (soup : PageElement) :
  match find (table_locator table_class) soup with
  | Some t =>
      table_with_class table_class t /\
      exists before after,
        descendants soup = before ++ t :: after /\
        Forall (fun e => ~ table_with_class table_class e) before
  | None =>
      Forall (fun e => ~ table_with_class table_class e) (descendants soup)
  end /\
  (find (table_locator table_class) soup = None <->
   Forall (fun e => ~ table_with_class table_class e) (descendants soup)).
Proof.
  assert (match find (table_locator table_class) soup with
          | Some t =>
              table_with_class table_class t /\
              exists before after,
                descendants soup = before ++ t :: after /\
                Forall (fun e => ~ table_with_class table_class e) before
          | None =>
              Forall (fun e => ~ table_with_class table_class e) (descendants soup)
          end) as Hfirst.
  { unfold find.
    pose proof (find_all_loop_first (table_locator table_class) (descendants soup)) as H.
    destruct (find_all_loop _ _ _ _) as [|r rest].
    - eapply Forall_impl; [exact H|]. intros e. by rewrite search_table_locator_false.
    - destruct H as (_ & Hr & l1 & l2 & Hd & Hl1). split.
      + by apply search_table_locator.
      + exists l1, l2. split; [done|].
        eapply Forall_impl; [exact Hl1|]. intros e.
        by rewrite search_table_locator_false. }
  split; [exact Hfirst|]. split.
  - intros Hnone. by rewrite Hnone in Hfirst.
  - intros Hall. destruct (find _ soup) as [t|]; [|done].
    destruct Hfirst as (Ht & before & after & Hd & _).
    rewrite Forall_forall in Hall. destruct (Hall t); [|done].
    rewrite Hd. apply elem_of_app. right. by left.
Qed.

(** ** C8: trimmed cells, rows without cells *)

(** C8: the grid has one row per [tr] element, in order, none dropped; a row
    without [td]/[th] cells is the empty list; every extracted cell is the
    cell's text without its leading and trailing whitespace; and the cell
    ["  foo  "] is extracted as ["foo"]. *)
Theorem extract_table_data_cells (table : PageElement) :
  let rows := find_all tr_filter table in
  length (extract_table_data table) = length rows /\
  (forall i row, rows !! i = Some row ->
     exists cols,
       extract_table_data table !! i = Some cols /\
       length cols = length (find_all cell_filter row) /\
       (find_all cell_filter row = [] -> cols = []) /\
       forall j col, find_all cell_filter row !! j = Some col ->
         cols !! j = Some (strip (text col)) /\
         exists a b,
           text col = a ++ strip (text col) ++ b /\
           Forall (fun c => isspace c = true) a /\
           Forall (fun c => isspace c = true) b /\
           (forall c, head (strip (text col)) = Some c -> isspace c = false) /\
           (forall c, last (strip (text col)) = Some c -> isspace c = false)) /\
  strip (u "  foo  ") = u "foo".
Proof.
  intros rows. rewrite extract_table_data_fmap. fold rows.
  split; [by rewrite length_fmap|]. split; [|reflexivity].
  intros i row Hrow. exists (row_cells row).
  rewrite list_lookup_fmap, Hrow. split; [done|].
  unfold row_cells. split; [by rewrite length_fmap|].
  split; [by intros ->|].
  intros j col Hcol. rewrite list_lookup_fmap, Hcol. split; [done|].
  apply strip_spec.
Qed.

(** ** C10: nested tables *)

(** The descendants of the node at a position follow it at once. *)
Lemma descendants_at (x y : PageElement) (p : nat) :
  descendants x !! p = Some y ->
  exists l2, drop (S p) (descendants x) = descendants y ++ l2.
Proof.
  revert p. induction x as [name attrs cs IH | cls s] using PageElement_ind';
    simpl; [|done].
  induction IH as [|c cs Hc _ IHcs]; simpl; [done|].
  intros [|p]; simpl.
  - intros [= ->]. eexists. by rewrite drop_0.
  - intros Hp. destruct (decide (p < length (descendants c))%nat) as [Hlt|Hge].
    + rewrite lookup_app_l in Hp by done.
      destruct (Hc p Hp) as (l2 & Hl2).
      rewrite drop_app_le by lia. rewrite Hl2. eexists. by rewrite <- app_assoc.
    + rewrite lookup_app_r in Hp by lia.
      rewrite drop_app_ge by lia.
      replace (S p - length (descendants c))%nat
        with (S (p - length (descendants c)))%nat by lia.
      by apply IHcs.
Qed.

(** The position in the list of an element of the filtered list. *)
Lemma filter_lookup_position {A} (P : A -> Prop) `{!forall x, Decision (P x)}
    (l : list A) (i : nat) (x : A) :
  filter P l !! i = Some x ->
  exists p, l !! p = Some x /\ P x /\ length (filter P (take p l)) = i.
Proof.
  revert i. induction l as [|a l IH]; intros i; [done|].
  rewrite filter_cons. destruct (decide (P a)) as [Ha|Ha].
  - destruct i as [|i]; simpl.
    + intros [= ->]. by exists 0%nat.
    + intros (p & Hp & Hx & Hlen)%IH. exists (S p). simpl.
      rewrite filter_cons, decide_True by done. simpl. by rewrite Hlen.
  - intros (p & Hp & Hx & Hlen)%IH. exists (S p). simpl.
    by rewrite filter_cons, decide_False.
Qed.

(** A match below the [i]-th match is a later match. *)
Lemma find_all_below st (x y z : PageElement) (i : nat) :
  find_all st x !! i = Some y ->
  z ∈ descendants y -> search st z = true ->
  exists k, (i < k)%nat /\ find_all st x !! k = Some z.
Proof.
  rewrite find_all_filter. intros (p & Hp & Hy & Hlen)%filter_lookup_position Hz Hs.
  destruct (descendants_at _ _ _ Hp) as (l2 & Hl2).
  apply list_elem_of_split in Hz as (m1 & m2 & Hm).
  rewrite <- (take_drop_middle _ _ _ Hp), Hl2, Hm.
  rewrite filter_app, filter_cons, filter_app, filter_app, (filter_cons _ z).
  rewrite (decide_True (P := search st z = true)) by done.
  rewrite (decide_True (P := search st y = true)) by done.
  set (n1 := length (filter (fun d => search st d = true) m1)).
  exists (i + S n1)%nat. split; [lia|].
  rewrite lookup_app_r by lia. rewrite Hlen.
  replace (i + S n1 - i)%nat with (S n1) by lia. simpl.
  rewrite <- app_assoc. rewrite lookup_app_r by (unfold n1; lia).
  by rewrite Nat.sub_diag.
Qed.

(** A plain string below an element is a piece of the element's text. *)
Lemma string_in_text (e : PageElement) (cls : StringClass) (s : pystr) :
  Str cls s ∈ descendants e -> cls = NavigableString \/ cls = CData ->
  exists a b, text e = a ++ s ++ b.
Proof.
  intros (l1 & l2 & Hd)%list_elem_of_split Hcls.
  unfold text, all_strings. rewrite Hd, join_nil_concat.
  rewrite flat_map_app. simpl. rewrite concat_app.
  assert (interesting cls = true) as -> by (by destruct Hcls as [-> | ->]).
  simpl. by eexists _, _.
Qed.

(** C10: take a cell of the [i]-th row of a table and a [tr] element below
    something inside that cell, such as a row of a nested table.  The row
    search finds that [tr] as well, as a later row [k] of its own, and its
    cells are row [k] of the grid; and the text of each nested cell, and
    every plain string inside the nested element, is a piece of the text
    of the enclosing cell, whose stripped text is entry [j] of row [i]. *)
Theorem nested_table_rows (table row cell nested nrow : PageElement)
    (i j : nat) (attrs : list (pystr * AttrValue)) (cs : list PageElement) :
  find_all tr_filter table !! i = Some row ->
  find_all cell_filter row !! j = Some cell ->
  nested ∈ descendants cell ->
  nrow ∈ descendants nested ->
  nrow = Tag (u "tr") attrs cs ->
  (exists k, (i < k)%nat /\
     find_all tr_filter table !! k = Some nrow /\
     extract_table_data table !! k
     = Some ((fun col => strip (text col)) <$> find_all cell_filter nrow)) /\
  (exists cells, extract_table_data table !! i = Some cells /\
                 cells !! j = Some (strip (text cell))) /\
  (forall ncell, ncell ∈ find_all cell_filter nrow ->
     exists a b, text cell = a ++ text ncell ++ b) /\
  (forall cls s, Str cls s ∈ descendants nested ->
     cls = NavigableString \/ cls = CData ->
     exists a b, text cell = a ++ s ++ b).
Proof.
  intros Hrow Hcell Hnested Hnrow Htr.
  assert (cell ∈ descendants row) as Hcr.
  { apply list_elem_of_lookup_2 in Hcell. rewrite find_all_filter in Hcell.
    by apply list_elem_of_filter in Hcell as [_ ?]. }
  assert (nrow ∈ descendants cell) as Hnc by (by eapply descendants_trans).
  assert (search tr_filter nrow = true) as Hs by (by rewrite Htr).
  split; [|split; [|split]].
  - destruct (find_all_below tr_filter table row nrow i Hrow) as (k & Hk & Hlk);
      [by eapply descendants_trans | done |].
    exists k. split; [done|]. split; [done|].
    by rewrite extract_table_data_fmap, list_lookup_fmap, Hlk.
  - exists (row_cells row). rewrite extract_table_data_fmap, list_lookup_fmap, Hrow.
    split; [reflexivity|]. unfold row_cells. by rewrite list_lookup_fmap, Hcell.
  - intros ncell Hn. apply text_descendant. eapply descendants_trans; [exact Hnc|].
    rewrite find_all_filter in Hn. by apply list_elem_of_filter in Hn as [_ ?].
  - intros cls s Hstr Hcls. apply (string_in_text cell cls s); [|done].
    by apply (descendants_trans _ nested).
Qed.

(** ** Loops *)

Lemma for_each_app {S A} (f : S -> A -> result S) l1 l2 s :
  for_each f (l1 ++ l2) s
  = (let* s' := for_each f l1 s in for_each f l2 s')%res.
Proof.
  revert s. induction l1 as [|x l1 IH]; intros s; simpl; [done|].
  destruct (f s x); simpl; [apply IH | done].
Qed.

(** A loop that ends normally ran every pass normally. *)
Lemma for_each_Ok_Forall {S A} (f : S -> A -> result S) l s s' :
  for_each f l s = Ok s' ->
  Forall (fun x => exists s1 s2, f s1 x = Ok s2) l.
Proof.
  revert s. induction l as [|x l IH]; intros s; simpl; [constructor|].
  destruct (f s x) as [s1|e] eqn:Hx; simpl; [|done].
  intros H. constructor; [by eauto | by eapply IH].
Qed.

Lemma enumerate_lookup {A} (l : list A) (start : Z) (i : nat) :
  enumerate l start !! i = (fun x => (start + Z.of_nat i, x)) <$> l !! i.
Proof.
  revert start i. induction l as [|x l IH]; intros start [|i]; simpl; try done.
  - by rewrite Z.add_0_r.
  - rewrite IH. destruct (l !! i); simpl; [|done]. do 2 f_equal. lia.
Qed.

Lemma elem_of_enumerate {A} (l : list A) (start : Z) (k : Z) (x : A) :
  (k, x) ∈ enumerate l start ->
  start <= k < start + len l /\ l !! Z.to_nat (k - start) = Some x.
Proof.
  intros (i & Hi)%list_elem_of_lookup. rewrite enumerate_lookup in Hi.
  destruct (l !! i) as [y|] eqn:Hy; simplify_eq/=.
  pose proof (lookup_lt_Some _ _ _ Hy). unfold len.
  split; [lia|]. by replace (Z.to_nat (start + Z.of_nat i - start)) with i by lia.
Qed.

(** ** Maximum *)

Lemma foldl_max_spec (l : list Z) (x : Z) :
  (foldl Z.max x l = x \/ foldl Z.max x l ∈ l) /\
  x <= foldl Z.max x l /\ Forall (fun y => y <= foldl Z.max x l) l.
Proof.
  revert x. induction l as [|y l IH]; intros x; simpl.
  - split; [by left|]. split; [lia|constructor].
  - destruct (IH (Z.max x y)) as ([H|H] & Hle & Hall).
    + split; [|split; [lia|constructor; [lia|done]]].
      rewrite H. destruct (Z.max_spec x y) as [[_ ->]|[_ ->]]; [right; left|by left].
    + split; [by right; right|]. split; [lia|constructor; [lia|done]].
Qed.

Lemma py_max_spec (l : list Z) (d : Z) :
  l <> [] -> py_max l d ∈ l /\ Forall (fun y => y <= py_max l d) l.
Proof.
  destruct l as [|x l]; [done|]. intros _. simpl.
  destruct (foldl_max_spec l x) as ([H|H] & Hle & Hall).
  - rewrite H at 1. split; [left|]. by constructor.
  - split; [by right|]. by constructor.
Qed.

Lemma py_max_unique (l : list Z) (d m : Z) :
  m ∈ l -> Forall (fun y => y <= m) l -> py_max l d = m.
Proof.
  intros Hm Hall. assert (l <> []) as Hne by (by intros ->; apply elem_of_nil in Hm).
  destruct (py_max_spec l d Hne) as [Hin Hle].
  rewrite Forall_forall in Hall, Hle.
  apply Z.le_antisymm; [by apply Hall | by apply Hle].
Qed.

(** ** Writing cells *)

Lemma lookupZ_cons {A} (x : A) l i :
  lookupZ (x :: l) i = if decide (i = 0) then Some x else lookupZ l (i - 1).
Proof.
  unfold lookupZ. repeat case_decide; try lia; try done.
  - by subst.
  - replace (Z.to_nat i) with (S (Z.to_nat (i - 1))) by lia. done.
Qed.

Lemma lookupZ_nil {A} i : lookupZ (@nil A) i = None.
Proof. unfold lookupZ. by case_decide. Qed.

Lemma lookupZ_neg {A} (l : list A) i : i < 0 -> lookupZ l i = None.
Proof. unfold lookupZ. intros Hi. by rewrite decide_False by lia. Qed.

Lemma lookupZ_Some {A} (l : list A) i x :
  lookupZ l i = Some x -> 0 <= i < len l.
Proof.
  unfold lookupZ, len. case_decide; [|done].
  intros Hx%lookup_lt_Some. lia.
Qed.

Lemma lookupZ_lt {A} (l : list A) i :
  0 <= i < len l -> is_Some (lookupZ l i).
Proof.
  unfold lookupZ, len. intros Hi. rewrite decide_True by lia.
  apply lookup_lt_is_Some. lia.
Qed.

Lemma alter_Some_insert {K A} `{Countable K} (f : A -> A) (m : gmap K A) k x :
  m !! k = Some x -> alter f k m = <[k := f x]> m.
Proof.
  intros Hk. apply map_eq. intros k'. rewrite lookup_alter, lookup_insert.
  case_decide; subst; [by rewrite Hk | done].
Qed.

Lemma alter_insert_same {K A} `{Countable K} (f : A -> A) (m : gmap K A) k x :
  alter f k (<[k := x]> m) = <[k := f x]> m.
Proof.
  rewrite (alter_Some_insert f _ k x) by apply lookup_insert_eq.
  apply insert_insert_eq.
Qed.

Lemma check_string_legal s :
  legal (Some s) -> check_string s = Ok (take (Z.to_nat 32767) s).
Proof. unfold legal, check_string. by intros ->. Qed.

Lemma check_string_Ok s s' :
  check_string s = Ok s' -> legal (Some s).
Proof. unfold legal, check_string. by destruct (existsb _ _). Qed.

Lemma add_data_cell_put r c v ws :
  1 <= r < 1048577 -> 1 <= c -> legal v ->
  add_data_cell r ws (c, v) = Ok (put r c v ws).
Proof.
  intros Hr Hc Hv. unfold add_data_cell, ws_cell, get_cell.
  replace ((r <? 1) || (c <? 1)) with false by lia.
  replace (negb ((0 <? r) && (r <? 1048577))) with false by lia.
  unfold put, written.
  destruct (cells ws !! (r, c)) as [old|] eqn:Hold; destruct v as [s|]; simpl.
  - rewrite (check_string_legal s Hv). simpl. unfold with_cells. simpl. f_equal. f_equal.
    by rewrite (alter_Some_insert _ _ _ _ Hold), alter_insert_same.
  - unfold with_cells. simpl. f_equal. f_equal.
    by rewrite (alter_Some_insert _ _ _ _ Hold).
  - rewrite (check_string_legal s Hv). simpl. unfold with_cells. simpl. f_equal. f_equal.
    by rewrite !alter_insert_same.
  - unfold with_cells. simpl. f_equal. f_equal. by rewrite alter_insert_same.
Qed.

Lemma add_data_cell_inv r c v s1 s2 :
  add_data_cell r s1 (c, v) = Ok s2 -> 1 <= r < 1048577 /\ 1 <= c /\ legal v.
Proof.
  unfold add_data_cell, ws_cell, get_cell.
  destruct ((r <? 1) || (c <? 1)) eqn:H1; [done|].
  destruct (negb ((0 <? r) && (r <? 1048577))) eqn:H2; [done|].
  intros H. split; [lia|]. split; [lia|].
  destruct v as [s|]; [|done].
  destruct (check_string s) eqn:Hs; [by eapply check_string_Ok|].
  by destruct (cells s1 !! (r, c)).
Qed.

Lemma add_data_row_put r row : forall c0 ws,
  Forall legal row -> (row <> [] -> 1 <= r < 1048577) -> 1 <= c0 ->
  for_each (add_data_cell r) (enumerate row c0) ws = Ok (put_row r c0 row ws).
Proof.
  induction row as [|v row IH]; intros c0 ws Hl Hr Hc; [done|].
  apply Forall_cons in Hl as [Hv Hl]. cbn [enumerate for_each].
  rewrite add_data_cell_put by (done || by apply Hr). cbn [rbind].
  apply IH; [done | intros _; by apply Hr | lia].
Qed.

Lemma add_data_row_inv r row c0 s1 s2 :
  for_each (add_data_cell r) (enumerate row c0) s1 = Ok s2 ->
  Forall legal row /\ (row <> [] -> 1 <= r < 1048577).
Proof.
  intros H%for_each_Ok_Forall. rewrite Forall_forall in H. split.
  - apply Forall_forall. intros v (i & Hi)%list_elem_of_lookup.
    destruct (H (c0 + Z.of_nat i, v)) as (s & s' & Hs).
    { apply list_elem_of_lookup. exists i. by rewrite enumerate_lookup, Hi. }
    by apply add_data_cell_inv in Hs as (_ & _ & ?).
  - destruct row as [|v row]; [done|]. intros _.
    destruct (H (c0, v)) as (s & s' & Hs); [by left|].
    by apply add_data_cell_inv in Hs as (? & _ & _).
Qed.

Lemma add_data_rows_put rows : forall r0 ws,
  Forall row_ok (enumerate rows r0) ->
  for_each add_data_row (enumerate rows r0) ws = Ok (put_rows r0 rows ws).
Proof.
  induction rows as [|row rows IH]; intros r0 ws Hok; [done|].
  cbn [enumerate] in Hok. apply Forall_cons in Hok as [[Hl Hr] Hok].
  cbn [enumerate for_each add_data_row fst snd] in *.
  rewrite add_data_row_put by (done || lia). cbn [rbind]. by apply IH.
Qed.

Lemma add_data_rows_inv rows r0 s1 s2 :
  for_each add_data_row (enumerate rows r0) s1 = Ok s2 ->
  Forall row_ok (enumerate rows r0).
Proof.
  intros H%for_each_Ok_Forall. eapply Forall_impl; [exact H|].
  intros [r row] (s & s' & Hs). by eapply add_data_row_inv.
Qed.

Lemma put_row_cons r c0 v row ws :
  put_row r c0 (v :: row) ws = put_row r (c0 + 1) row (put r c0 v ws).
Proof. done. Qed.

Lemma put_rows_cons r0 row rows ws :
  put_rows r0 (row :: rows) ws = put_rows (r0 + 1) rows (put_row r0 1 row ws).
Proof. done. Qed.

Lemma put_row_lookup r row : forall c0 ws r' c',
  cells (put_row r c0 row ws) !! (r', c')
  = match (if decide (r' = r) then lookupZ row (c' - c0) else None) with
    | Some v => Some (written r v (cells ws !! (r', c')))
    | None => cells ws !! (r', c')
    end.
Proof.
  induction row as [|v row IH]; intros c0 ws r' c'.
  - rewrite lookupZ_nil. by case_decide.
  - rewrite put_row_cons, IH, lookupZ_cons. simpl.
    replace (c' - (c0 + 1)) with (c' - c0 - 1) by lia.
    destruct (decide (r' = r)) as [->|Hr].
    + destruct (decide (c' - c0 = 0)) as [Hc|Hc].
      * replace c' with c0 by lia. rewrite lookupZ_neg by lia.
        by rewrite lookup_insert_eq.
      * rewrite lookup_insert_ne by (intros [= ?]; lia). done.
    + rewrite lookup_insert_ne by congruence. done.
Qed.

Lemma put_rows_lookup rows : forall r0 ws r' c',
  cells (put_rows r0 rows ws) !! (r', c')
  = match lookupZ rows (r' - r0) ≫= (fun row => lookupZ row (c' - 1)) with
    | Some v => Some (written r' v (cells ws !! (r', c')))
    | None => cells ws !! (r', c')
    end.
Proof.
  induction rows as [|row rows IH]; intros r0 ws r' c'.
  - by rewrite lookupZ_nil.
  - rewrite put_rows_cons, IH, lookupZ_cons, !put_row_lookup.
    replace (r' - (r0 + 1)) with (r' - r0 - 1) by lia.
    destruct (decide (r' - r0 = 0)) as [Hr|Hr].
    + replace r' with r0 by lia. rewrite lookupZ_neg by lia. simpl.
      by rewrite decide_True.
    + rewrite decide_False by lia. done.
Qed.

Lemma foldl_preserves {S A} (P : S -> Prop) (f : S -> A -> S) l s :
  (forall s x, x ∈ l -> P s -> P (f s x)) -> P s -> P (foldl f s l).
Proof.
  revert s. induction l as [|x l IH]; intros s Hf Hs; simpl; [done|].
  apply IH; [|apply Hf; [by left|done]].
  intros s' y Hy. apply Hf. by right.
Qed.

Lemma put_rows_bounded r c v ws :
  1 <= r -> rows_bounded ws -> rows_bounded (put r c v ws).
Proof.
  intros Hr Hws r' c'. unfold put. simpl.
  destruct (decide ((r, c) = (r', c'))) as [[= <- <-]|Hne].
  - intros _. destruct (cells ws !! (r, c)) eqn:Hold; [|lia].
    apply (Hws r c). by rewrite Hold.
  - rewrite lookup_insert_ne by done. intros Hsome.
    pose proof (Hws r' c' Hsome). destruct (cells ws !! (r, c)); lia.
Qed.

Lemma put_row_bounded r c0 row ws :
  1 <= r -> rows_bounded ws -> rows_bounded (put_row r c0 row ws).
Proof.
  intros Hr. apply (foldl_preserves rows_bounded).
  intros s [c v] _. by apply put_rows_bounded.
Qed.

Lemma put_rows_rows_bounded r0 rows ws :
  1 <= r0 -> rows_bounded ws -> rows_bounded (put_rows r0 rows ws).
Proof.
  intros Hr. apply (foldl_preserves rows_bounded).
  intros s [r row] [? _]%elem_of_enumerate. apply put_row_bounded. simpl. lia.
Qed.

Lemma put_rows_title r0 rows ws :
  title (put_rows r0 rows ws) = title ws /\
  column_dimensions (put_rows r0 rows ws) = column_dimensions ws.
Proof.
  apply (foldl_preserves
           (fun s => title s = title ws /\ column_dimensions s = column_dimensions ws));
    [|done].
  intros s [r row] _ Hs. unfold put_row.
  apply (foldl_preserves
           (fun s => title s = title ws /\ column_dimensions s = column_dimensions ws));
    [|done].
  intros s' [c v] _ Hs'. done.
Qed.

Lemma put_rows_nil_rows r0 rows ws :
  Forall (fun row => row = []) rows -> put_rows r0 rows ws = ws.
Proof.
  revert r0. induction rows as [|row rows IH]; intros r0 H; [done|].
  apply Forall_cons in H as [-> H]. rewrite put_rows_cons. by apply IH.
Qed.

(** ** Column letters *)

Lemma holds_upto_spec n f : forall j k,
  holds_upto n j f = true -> j <= k < j + Z.of_nat n -> f k = true.
Proof.
  induction n as [|n IH]; intros j k H Hk; [lia|].
  simpl in H. apply andb_true_iff in H as [Hj H].
  destruct (decide (k = j)) as [->|Hne]; [done|].
  apply (IH (j + 1)); [done|lia].
Qed.

(** The letters of every valid column read back as its index. *)
Lemma column_letter_index (j : Z) :
  1 <= j <= 18278 -> column_index_from_string (column_letter j) = j.
Proof.
  intros Hj. apply Z.eqb_eq.
  apply (holds_upto_spec (Z.to_nat 18278)
           (fun j => column_index_from_string (column_letter j) =? j) 1 j);
    [vm_compute; reflexivity | lia].
Qed.

Lemma column_letter_inj (i j : Z) :
  1 <= i <= 18278 -> 1 <= j <= 18278 ->
  column_letter i = column_letter j -> i = j.
Proof.
  intros Hi Hj Heq.
  rewrite <- (column_letter_index i Hi), <- (column_letter_index j Hj).
  by rewrite Heq.
Qed.

Lemma get_column_letter_Ok j :
  1 <= j <= 18278 -> get_column_letter j = Ok (column_letter j).
Proof. intros Hj. unfold get_column_letter. by replace ((1 <=? j) && (j <=? 18278)) with true by lia. Qed.

Lemma get_column_letter_inv j l :
  get_column_letter j = Ok l -> 1 <= j <= 18278 /\ l = column_letter j.
Proof.
  unfold get_column_letter. destruct ((1 <=? j) && (j <=? 18278)) eqn:Hj; [|done].
  intros [= <-]. split; [lia|done].
Qed.

(** ** Full sheets *)

Lemma rect_max ws m n :
  rect ws m n -> 1 <= m -> 1 <= n -> max_row ws = m /\ max_column ws = n.
Proof.
  intros Hrect Hm Hn.
  assert (forall r c, (exists x, ((r, c), x) ∈ map_to_list (cells ws))
                      <-> 1 <= r <= m /\ 1 <= c <= n) as Hkeys.
  { intros r c. rewrite <- (Hrect r c). unfold is_Some.
    by setoid_rewrite elem_of_map_to_list. }
  split; apply py_max_unique.
  - destruct (proj2 (Hkeys m 1)) as [x Hx]; [lia|].
    apply list_elem_of_fmap. exists (m, 1). split; [done|].
    apply list_elem_of_fmap. by exists ((m, 1), x).
  - apply Forall_forall.
    intros r (k & -> & (kv & -> & Hx)%list_elem_of_fmap)%list_elem_of_fmap.
    destruct kv as [[r' c'] x]. simpl. apply (Hkeys r' c'). by exists x.
  - destruct (proj2 (Hkeys 1 n)) as [x Hx]; [lia|].
    apply list_elem_of_fmap. exists (1, n). split; [done|].
    apply list_elem_of_fmap. by exists ((1, n), x).
  - apply Forall_forall.
    intros c (k & -> & (kv & -> & Hx)%list_elem_of_fmap)%list_elem_of_fmap.
    destruct kv as [[r' c'] x]. simpl. apply (Hkeys r' c'). by exists x.
Qed.

Lemma ws_cell_present ws r c x :
  1 <= r < 1048577 -> 1 <= c -> cells ws !! (r, c) = Some x ->
  ws_cell ws r c None = Ok ws.
Proof.
  intros Hr Hc Hx. unfold ws_cell, get_cell.
  replace ((r <? 1) || (c <? 1)) with false by lia.
  replace (negb ((0 <? r) && (r <? 1048577))) with false by lia.
  by rewrite Hx.
Qed.

Lemma cells_by_col_present ws j rs : forall acc,
  1 <= j ->
  Forall (fun r => 1 <= r < 1048577 /\ is_Some (cells ws !! (r, j))) rs ->
  for_each (cells_by_col_step j) rs (ws, acc)
  = Ok (ws, acc ++ omap (fun r => cells ws !! (r, j)) rs).
Proof.
  induction rs as [|r rs IH]; intros acc Hj Hrs.
  - simpl. by rewrite app_nil_r.
  - apply Forall_cons in Hrs as [[Hr [x Hx]] Hrs].
    cbn [for_each cells_by_col_step].
    rewrite (ws_cell_present ws r j x) by done. cbn [rbind]. rewrite Hx.
    cbn [rbind]. rewrite IH by done. cbn [omap list_omap]. rewrite Hx.
    by rewrite <- app_assoc.
Qed.

Lemma column_cells_length ws m n j :
  rect ws m n -> 1 <= j <= n -> 0 <= m -> len (column_cells ws m j) = m.
Proof.
  intros Hrect Hj Hm. unfold column_cells, len.
  assert (forall rs, Forall (fun r => 1 <= r <= m) rs ->
            length (omap (fun r => cells ws !! (r, j)) rs) = length rs) as H.
  { induction rs as [|r rs IH]; intros Hrs; [done|].
    apply Forall_cons in Hrs as [Hr Hrs]. cbn [omap list_omap].
    destruct (proj2 (Hrect r j)) as [x ->]; [lia|]. simpl. by rewrite IH. }
  rewrite H, length_seqZ; [lia|].
  apply Forall_forall. intros r Hr%elem_of_seqZ. lia.
Qed.

Lemma adjust_column_rect ws m n j d :
  rect ws m n -> 1 <= m < 1048577 -> 1 <= j <= n -> j <= 18278 ->
  adjust_column m (with_dims ws d) j = Ok (with_dims ws (set_width ws m d j)).
Proof.
  intros Hrect Hm Hj Hj'. unfold adjust_column, cells_by_col, range.
  replace (m + 1 - 1) with m by lia.
  rewrite cells_by_col_present; [|lia|].
  2:{ apply Forall_forall. intros r Hr%elem_of_seqZ. split; [lia|].
      apply Hrect. lia. }
  cbn [rbind app with_dims cells]. fold (column_cells ws m j).
  pose proof (column_cells_length ws m n j Hrect Hj ltac:(lia)) as Hlen.
  destruct (column_cells ws m j) as [|c0 col] eqn:Hcol; [unfold len in Hlen; simpl in Hlen; lia|].
  rewrite get_column_letter_Ok by lia. cbn [rbind].
  unfold set_width, column_width. rewrite Hcol. done.
Qed.

Lemma adjust_column_inv m s1 j s2 :
  adjust_column m s1 j = Ok s2 -> 1 <= j <= 18278.
Proof.
  unfold adjust_column. destruct (cells_by_col s1 1 m j) as [[ws col]|e]; [|done].
  cbn [rbind]. destruct col as [|c0 col]; [done|].
  destruct (get_column_letter j) as [l|e] eqn:Hl; [|done].
  intros _. by apply get_column_letter_inv in Hl as [? _].
Qed.

Lemma adjust_columns_rect ws m n js : forall d,
  rect ws m n -> 1 <= m < 1048577 ->
  Forall (fun j => 1 <= j <= n /\ j <= 18278) js ->
  for_each (adjust_column m) js (with_dims ws d)
  = Ok (with_dims ws (foldl (set_width ws m) d js)).
Proof.
  induction js as [|j js IH]; intros d Hrect Hm Hjs; [done|].
  apply Forall_cons in Hjs as [[Hj Hj'] Hjs]. cbn [for_each foldl].
  rewrite (adjust_column_rect ws m n) by done. cbn [rbind]. by apply IH.
Qed.

Lemma with_dims_id ws : with_dims ws (column_dimensions ws) = ws.
Proof. by destruct ws. Qed.

Lemma adjust_column_widths_rect ws m n :
  rect ws m n -> 1 <= m < 1048577 -> 1 <= n <= 18278 -> current_row ws <> 0 ->
  adjust_column_widths ws = Ok (with_dims ws (widths ws m n)).
Proof.
  intros Hrect Hm Hn Hcur. unfold adjust_column_widths.
  destruct (Z.eqb_spec (current_row ws) 0) as [|_]; [done|].
  destruct (rect_max ws m n Hrect) as [-> ->]; [lia..|].
  unfold range. replace (n + 1 - 1) with n by lia.
  rewrite <- (with_dims_id ws) at 1.
  apply (adjust_columns_rect ws m n); [done..|].
  apply Forall_forall. intros j Hj%elem_of_seqZ. lia.
Qed.

Lemma adjust_column_widths_inv ws m n ws' :
  rect ws m n -> 1 <= m -> 1 <= n -> current_row ws <> 0 ->
  adjust_column_widths ws = Ok ws' -> n <= 18278.
Proof.
  intros Hrect Hm Hn Hcur. unfold adjust_column_widths.
  destruct (Z.eqb_spec (current_row ws) 0) as [|_]; [done|].
  destruct (rect_max ws m n Hrect) as [-> ->]; [lia..|].
  intros H%for_each_Ok_Forall. rewrite Forall_forall in H.
  destruct (H n) as (s1 & s2 & Hs).
  { unfold range. apply elem_of_seqZ. lia. }
  apply adjust_column_inv in Hs. lia.
Qed.

Lemma widths_frame ws m js : forall d l,
  l ∉ column_letter <$> js ->
  foldl (set_width ws m) d js !! l = d !! l.
Proof.
  induction js as [|j js IH]; intros d l Hl; [done|].
  rewrite fmap_cons, not_elem_of_cons in Hl. destruct Hl as [Hne Hl].
  cbn [foldl]. rewrite IH by done. unfold set_width.
  by rewrite lookup_insert_ne.
Qed.

Lemma widths_lookup_list ws m js : forall d j,
  NoDup js -> Forall (fun j => 1 <= j <= 18278) js -> j ∈ js ->
  foldl (set_width ws m) d js !! column_letter j
  = Some {| width := column_width ws m j |}.
Proof.
  induction js as [|j0 js IH]; intros d j Hnd Hjs Hj; [by apply elem_of_nil in Hj|].
  apply NoDup_cons in Hnd as [Hj0 Hnd]. apply Forall_cons in Hjs as [Hr Hjs].
  cbn [foldl]. apply elem_of_cons in Hj as [->|Hj]; [|by apply IH].
  rewrite widths_frame.
  - unfold set_width. by rewrite lookup_insert_eq.
  - intros (j' & Heq & Hj')%list_elem_of_fmap.
    rewrite Forall_forall in Hjs.
    apply column_letter_inj in Heq; [by subst | done | by apply Hjs].
Qed.

Lemma widths_lookup ws m n j :
  1 <= j <= n -> n <= 18278 ->
  widths ws m n !! column_letter j = Some {| width := column_width ws m j |}.
Proof.
  intros Hj Hn. apply widths_lookup_list.
  - apply NoDup_seqZ.
  - apply Forall_forall. intros j' Hj'%elem_of_seqZ. lia.
  - apply elem_of_seqZ. lia.
Qed.

(** ** The data frame *)

Lemma pd_DataFrame_Ok header rest :
  frame_ok header rest ->
  exists df, pd_DataFrame rest header = Ok df /\
             dataframe_to_rows df = sheet_rows header rest.
Proof.
  unfold pd_DataFrame, dataframe_to_rows, itertuples, sheet_rows.
  intros [->|Hk].
  - eexists. split; [done|]. simpl. by destruct header.
  - destruct rest as [|row rest].
    + eexists. split; [done|]. simpl. by destruct header.
    + rewrite decide_True by done. eexists. split; [done|]. done.
Qed.

Lemma pd_DataFrame_inv header rest df :
  pd_DataFrame rest header = Ok df -> frame_ok header rest.
Proof.
  unfold pd_DataFrame, frame_ok. destruct rest as [|row rest]; [by left|].
  case_decide; [|done]. intros _. by right.
Qed.

Lemma max_list_ge (l : list nat) (x : nat) : x ∈ l -> (x <= max_list l)%nat.
Proof.
  induction l as [|y l IH]; [by intros ?%elem_of_nil|].
  intros [->|Hx%IH]%elem_of_cons; simpl; lia.
Qed.


Lemma to_object_array_lengths rest :
  Forall (fun row => length row = max_list (length <$> rest)) (to_object_array rest).
Proof.
  unfold to_object_array. apply Forall_forall.
  intros row' (row & -> & Hrow)%list_elem_of_fmap.
  rewrite length_app, length_fmap, length_replicate.
  assert (length row <= max_list (length <$> rest))%nat; [|lia].
  apply max_list_ge, list_elem_of_fmap. by exists row.
Qed.

Lemma sheet_rows_lengths header rest :
  frame_ok header rest ->
  Forall (fun row => len row = len header) (sheet_rows header rest).
Proof.
  intros Hok. unfold sheet_rows. constructor; [unfold len; by rewrite length_fmap|].
  destruct header as [|h header]; [constructor|].
  destruct Hok as [->|Hk]; [constructor|].
  eapply Forall_impl; [apply to_object_array_lengths|].
  intros row Hrow. unfold len. by rewrite Hrow, Hk.
Qed.


(** ** The sheet built by [add_data_to_sheet] *)

Lemma written_value r v : value (written r v None) = stored v.
Proof.
  unfold written, apply_cell_formatting. by destruct v, (r =? 1).
Qed.

Lemma put_rows_rect rows n ws :
  cells ws = ∅ -> Forall (fun row => len row = n) rows ->
  rect (put_rows 1 rows ws) (len rows) n.
Proof.
  intros Hempty Hrows r c. rewrite put_rows_lookup, Hempty, lookup_empty.
  destruct (lookupZ rows (r - 1)) as [row|] eqn:Hrow; simpl.
  - pose proof (lookupZ_Some _ _ _ Hrow) as Hr.
    assert (len row = n) as Hn.
    { rewrite Forall_forall in Hrows. apply Hrows.
      unfold lookupZ in Hrow. case_decide; [|done]. by eapply list_elem_of_lookup_2. }
    destruct (lookupZ row (c - 1)) as [v|] eqn:Hv.
    + apply lookupZ_Some in Hv. split; [lia|by eauto].
    + split; [by intros [? ?]|]. intros [_ Hc].
      destruct (lookupZ_lt row (c - 1)) as [? ?]; [lia|congruence].
  - split; [by intros [? ?]|]. intros [Hr _].
    destruct (lookupZ_lt rows (r - 1)) as [? ?]; [lia|congruence].
Qed.

Lemma enumerate_row_ok_bound rows n :
  Forall row_ok (enumerate rows 1) -> Forall (fun row => len row = n) rows ->
  1 <= n -> len rows < 1048577.
Proof.
  intros Hok Hrows Hn. destruct (decide (len rows = 0)) as [|Hne]; [lia|].
  assert (0 <= len rows - 1 < len rows) as Hi by (unfold len in *; lia).
  destruct (lookupZ_lt rows _ Hi) as [row Hrow].
  unfold lookupZ in Hrow. rewrite decide_True in Hrow by lia.
  rewrite Forall_forall in Hok. rewrite Forall_forall in Hrows.
  destruct (Hok (1 + Z.of_nat (Z.to_nat (len rows - 1)), row)) as [_ Hr].
  { apply list_elem_of_lookup. exists (Z.to_nat (len rows - 1)).
    by rewrite enumerate_lookup, Hrow. }
  simpl in Hr. assert (row <> []) as Hne'.
  { intros ->. specialize (Hrows [] ltac:(by eapply list_elem_of_lookup_2)).
    unfold len in Hrows. simpl in Hrows. lia. }
  specialize (Hr Hne'). lia.
Qed.

(** ** The workbook [export_to_excel] saves *)

Lemma export_to_excel_unfold data filename w :
  export_to_excel data filename w
  = match build_workbook data with
    | Ok wb => save wb filename w
    | Raise e => (Raise e, w)
    end.
Proof.
  unfold export_to_excel, bindM, lift. fold (build_workbook data).
  by destruct (build_workbook data).
Qed.

Lemma sheet0_facts :
  cells sheet0 = ∅ /\ current_row sheet0 = 0 /\ column_dimensions sheet0 = ∅ /\
  title sheet0 = u "Table Data".
Proof. done. Qed.

Lemma exported_sheet_full header rest :
  frame_ok header rest -> header <> [] ->
  let ws := put_rows 1 (sheet_rows header rest) sheet0 in
  rect ws (len (sheet_rows header rest)) (len header) /\
  1 <= len (sheet_rows header rest) /\ 1 <= len header /\ current_row ws <> 0.
Proof.
  intros Hframe Hne ws.
  assert (rect ws (len (sheet_rows header rest)) (len header)) as Hrect.
  { apply put_rows_rect; [done | by apply sheet_rows_lengths]. }
  assert (1 <= len (sheet_rows header rest)) as Hm by (unfold len, sheet_rows; simpl; lia).
  assert (1 <= len header) as Hn by (destruct header; [done|unfold len; simpl; lia]).
  split; [done|]. split; [done|]. split; [done|].
  assert (rows_bounded ws) as Hb.
  { apply put_rows_rows_bounded; [lia|]. intros r1 c1 [x Hx]. destruct sheet0_facts as (He & _).
    by rewrite He, lookup_empty in Hx. }
  assert (is_Some (cells ws !! (1, 1))) as H11 by (apply Hrect; lia).
  unfold rows_bounded in Hb. specialize (Hb 1 1 H11). lia.
Qed.

Lemma build_workbook_closed header rest :
  exportable header rest ->
  build_workbook (header :: rest)
  = Ok (set_active wb0 (exported_sheet header rest)).
Proof.
  intros (Hframe & Hrows & Hn). unfold build_workbook.
  cbn [drop getitem lookup list_lookup rbind]. change (drop 0 rest) with rest.
  destruct (pd_DataFrame_Ok header rest Hframe) as (df & -> & Hdf). cbn [rbind].
  change create_excel_workbook with (wb0, sheet0). cbn iota.
  unfold add_data_to_sheet. rewrite Hdf, add_data_rows_put by done. cbn [rbind].
  unfold exported_sheet. destruct header as [|h header].
  - rewrite put_rows_nil_rows by (by repeat constructor). done.
  - destruct (exported_sheet_full (h :: header) rest Hframe ltac:(done))
      as (Hrect & Hm & Hn' & Hcur).
    erewrite adjust_column_widths_rect; [done | exact Hrect | | lia | done].
    split; [done|].
    eapply enumerate_row_ok_bound; [done | by apply sheet_rows_lengths | done].
Qed.

Lemma build_workbook_inv data wb :
  build_workbook data = Ok wb ->
  exists header rest, data = header :: rest /\ exportable header rest.
Proof.
  unfold build_workbook. destruct data as [|header rest]; [done|].
  cbn [drop getitem lookup list_lookup rbind]. change (drop 0 rest) with rest.
  destruct (pd_DataFrame rest header) as [df|e] eqn:Hdf; [|done]. cbn [rbind].
  pose proof (pd_DataFrame_inv _ _ _ Hdf) as Hframe.
  destruct (pd_DataFrame_Ok header rest Hframe) as (df' & Hdf' & Hrows).
  rewrite Hdf in Hdf'. injection Hdf' as <-.
  change create_excel_workbook with (wb0, sheet0). cbn iota.
  unfold add_data_to_sheet. rewrite Hrows.
  destruct (for_each add_data_row _ sheet0) as [ws|e] eqn:Hadd; [|done]. cbn [rbind].
  pose proof (add_data_rows_inv _ _ _ _ Hadd) as Hok.
  rewrite add_data_rows_put in Hadd by done. injection Hadd as <-.
  destruct (adjust_column_widths _) as [ws'|e] eqn:Hadj; [|done]. intros _.
  exists header, rest. split; [done|]. split; [done|]. split; [done|].
  destruct header as [|h header]; [done|].
  destruct (exported_sheet_full (h :: header) rest Hframe ltac:(done))
    as (Hrect & Hm & Hn' & Hcur).
  by eapply adjust_column_widths_inv.
Qed.

(** A data row longer than the header, or data rows all shorter than it,
    stop the writer where the frame is built. *)
Lemma frame_mismatch_raises header rest filename w :
  rest <> [] -> max_list (length <$> rest) <> length header ->
  exists msg,
    export_to_excel (header :: rest) filename w = (Raise (Exn ValueError msg), w).
Proof.
  intros Hne Hk. rewrite export_to_excel_unfold. unfold build_workbook.
  cbn [drop getitem lookup list_lookup rbind]. change (drop 0 rest) with rest.
  unfold pd_DataFrame. destruct rest as [|row rest]; [done|].
  rewrite decide_False by congruence. by eexists.
Qed.

Lemma written_sheet_save w filename ws :
  written_sheet {| stdout := stdout w;
                   files := <[filename := set_active wb0 ws]> (files w);
                   writable := writable w |} filename = Some ws.
Proof. unfold written_sheet. simpl. by rewrite lookup_insert_eq. Qed.

Lemma export_to_excel_closed header rest filename w :
  exportable header rest -> writable w filename = true ->
  export_to_excel (header :: rest) filename w
  = (Ok tt, {| stdout := stdout w;
               files := <[filename := set_active wb0 (exported_sheet header rest)]>
                          (files w);
               writable := writable w |}).
Proof.
  intros Hexp Hw. rewrite export_to_excel_unfold, build_workbook_closed by done.
  unfold save. by rewrite Hw.
Qed.

Lemma export_to_excel_inv data filename w w' :
  export_to_excel data filename w = (Ok tt, w') ->
  exists header rest,
    data = header :: rest /\ exportable header rest /\
    writable w filename = true /\
    written_sheet w' filename = Some (exported_sheet header rest).
Proof.
  rewrite export_to_excel_unfold.
  destruct (build_workbook data) as [wb|e] eqn:Hwb; [|done].
  destruct (build_workbook_inv _ _ Hwb) as (header & rest & -> & Hexp).
  rewrite build_workbook_closed in Hwb by done. injection Hwb as <-.
  unfold save. destruct (writable w filename) eqn:Hw; [|done].
  intros [= <-]. exists header, rest.
  split; [done|]. split; [done|]. split; [done|]. apply written_sheet_save.
Qed.

(** ** Longest value of a column *)

Lemma truthy_len v : truthy v = true -> len_str v = len_value v /\ 0 < len_value v.
Proof. by destruct v as [[|c s]|]. Qed.

Lemma falsy_len v : truthy v = false -> len_value v = 0.
Proof. by destruct v as [[|c s]|]. Qed.

Lemma longest_spec (vals : list (option pystr)) :
  vals <> [] ->
  let longest := py_max (len_str <$> filter (fun v => truthy v = true) vals) 0 in
  (forall v, v ∈ vals -> len_value v <= longest) /\
  (exists v, v ∈ vals /\ len_value v = longest).
Proof.
  intros Hne longest.
  destruct (filter (fun v => truthy v = true) vals) as [|v0 l] eqn:Hf.
  - assert (forall v, v ∈ vals -> len_value v = 0) as Hall.
    { intros v Hv. apply falsy_len. destruct (truthy v) eqn:Hv'; [|done].
      assert (v ∈ filter (fun v => truthy v = true) vals) as Hin
          by (by apply list_elem_of_filter).
      rewrite Hf in Hin. by apply elem_of_nil in Hin. }
    subst longest. simpl. split.
    + intros v Hv. rewrite (Hall v Hv). done.
    + destruct vals as [|v vals]; [done|]. exists v. split; [by left|].
      apply Hall. by left.
  - destruct (py_max_spec (len_str <$> v0 :: l) 0) as [Hin Hle]; [done|].
    fold longest in Hin, Hle.
    apply list_elem_of_fmap in Hin as (v1 & Hv1 & Hin).
    rewrite <- Hf in Hin. apply list_elem_of_filter in Hin as [Ht1 Hin].
    destruct (truthy_len v1 Ht1) as [Heq Hpos].
    split.
    + intros v Hv. destruct (truthy v) eqn:Ht.
      * destruct (truthy_len v Ht) as [<- _].
        rewrite Forall_forall in Hle. apply Hle.
        apply list_elem_of_fmap. exists v. split; [done|].
        rewrite <- Hf. by apply list_elem_of_filter.
      * rewrite (falsy_len v Ht). lia.
    + exists v1. split; [done|]. lia.
Qed.

Lemma column_cells_spec ws m n j :
  rect ws m n -> 1 <= j <= n ->
  forall cell, cell ∈ column_cells ws m j <-> exists r, cells ws !! (r, j) = Some cell.
Proof.
  intros Hrect Hj cell. unfold column_cells. rewrite list_elem_of_omap. split.
  - intros (r & _ & Hr). by exists r.
  - intros (r & Hr). exists r. split; [|done].
    apply elem_of_seqZ. assert (is_Some (cells ws !! (r, j))) as Hs by (by rewrite Hr).
    apply Hrect in Hs. lia.
Qed.

Lemma column_width_spec ws m n j :
  rect ws m n -> 1 <= m -> 1 <= j <= n ->
  exists longest,
    column_width ws m j = longest + 2 /\
    (forall r cell, cells ws !! (r, j) = Some cell -> len_value (value cell) <= longest) /\
    (exists r cell, cells ws !! (r, j) = Some cell /\ len_value (value cell) = longest).
Proof.
  intros Hrect Hm Hj. unfold column_width.
  pose proof (column_cells_spec ws m n j Hrect Hj) as Hcol.
  assert (value <$> column_cells ws m j <> []) as Hne.
  { pose proof (column_cells_length ws m n j Hrect Hj ltac:(lia)) as Hlen.
    destruct (column_cells ws m j); [unfold len in Hlen; simpl in Hlen; lia|done]. }
  destruct (longest_spec _ Hne) as [Hle (v & Hv & Hmax)].
  eexists. split; [done|]. split.
  - intros r cell Hcell. apply Hle. apply list_elem_of_fmap. exists cell.
    split; [done|]. apply Hcol. by exists r.
  - apply list_elem_of_fmap in Hv as (cell & -> & (r & Hr)%Hcol). by exists r, cell.
Qed.

(** ** C2: column widths *)

(** C2 (as amended): in every exported sheet, the width of each column that
    has a cell is the length of the longest value of the column plus 2; a
    column whose cells are all empty has the width 2. *)
Theorem column_widths_fit (data : list (list pystr)) (filename : pystr)
    (w w' : World) (ws : Worksheet) :
  export_to_excel data filename w = (Ok tt, w') ->
  written_sheet w' filename = Some ws ->
  forall j, (exists r, is_Some (cells ws !! (r, j))) ->
    exists letter longest,
      get_column_letter j = Ok letter /\
      column_dimensions ws !! letter = Some {| width := longest + 2 |} /\
      (forall r cell, cells ws !! (r, j) = Some cell ->
         len_value (value cell) <= longest) /\
      (exists r cell, cells ws !! (r, j) = Some cell /\
         len_value (value cell) = longest) /\
      ((forall r cell, cells ws !! (r, j) = Some cell ->
          value cell = None \/ value cell = Some []) ->
       column_dimensions ws !! letter = Some {| width := 2 |}).
Proof.
  intros Hexp Hws j [r Hr].
  apply export_to_excel_inv in Hexp
    as (header & rest & -> & (Hframe & Hrows & Hn) & _ & Hws').
  rewrite Hws in Hws'. injection Hws' as ->.
  unfold exported_sheet in *. destruct header as [|h header].
  { rewrite put_rows_nil_rows in Hr by (by repeat constructor).
    destruct Hr as [x Hx]. destruct sheet0_facts as (He & _).
    by rewrite He, lookup_empty in Hx. }
  destruct (exported_sheet_full (h :: header) rest Hframe ltac:(done))
    as (Hrect & Hm & Hn' & Hcur).
  set (ws1 := put_rows 1 (sheet_rows (h :: header) rest) sheet0) in *.
  cbn [with_dims cells column_dimensions] in *.
  assert (1 <= j <= len (h :: header)) as Hj by (apply Hrect in Hr; lia).
  destruct (column_width_spec ws1 _ _ j Hrect Hm Hj) as (longest & Hw & Hle & Hmax).
  exists (column_letter j), longest.
  split; [apply get_column_letter_Ok; lia|].
  assert (widths ws1 (len (sheet_rows (h :: header) rest)) (len (h :: header))
            !! column_letter j = Some {| width := longest + 2 |}) as Hwidth.
  { rewrite widths_lookup by lia. by rewrite Hw. }
  split; [done|]. split; [done|]. split; [done|].
  intros Hempty. rewrite Hwidth. destruct Hmax as (r' & cell & Hcell & <-).
  by destruct (Hempty r' cell Hcell) as [-> | ->].
Qed.

Lemma clean_legal s : clean s -> legal (Some s).
Proof.
  unfold clean, legal. intros Hs.
  apply not_true_is_false. intros (c & Hc & Hill)%existsb_exists.
  apply list_elem_of_In in Hc.
  assert (c ∈ s) as Hin.
  { rewrite <- (take_drop (Z.to_nat 32767) s). apply elem_of_app. by left. }
  rewrite Forall_forall in Hs. by rewrite (Hs c Hin) in Hill.
Qed.

Lemma to_object_array_legal rest :
  Forall (Forall clean) rest -> Forall (Forall legal) (to_object_array rest).
Proof.
  intros Hrest. unfold to_object_array. apply Forall_fmap.
  eapply Forall_impl; [exact Hrest|]. intros row Hrow. simpl.
  apply Forall_app. split.
  - apply Forall_fmap. eapply Forall_impl; [exact Hrow|]. intros s. apply clean_legal.
  - by apply Forall_replicate.
Qed.

Lemma sheet_rows_length_le header rest :
  len (sheet_rows header rest) <= len (header :: rest).
Proof.
  unfold sheet_rows, to_object_array, len.
  destruct header; simpl; [lia|]. rewrite length_fmap. lia.
Qed.

(** Clean cells and a grid of at most 1048576 rows pass [add_data_to_sheet]. *)
Lemma sheet_rows_ok header rest :
  Forall (Forall clean) (header :: rest) -> len (header :: rest) <= 1048576 ->
  Forall row_ok (enumerate (sheet_rows header rest) 1).
Proof.
  intros Hclean Hlen. apply Forall_cons in Hclean as [Hh Hrest].
  assert (Forall (Forall legal) (sheet_rows header rest)) as Hlegal.
  { unfold sheet_rows. constructor.
    - apply Forall_fmap. eapply Forall_impl; [exact Hh|]. intros s. apply clean_legal.
    - destruct header; [constructor|]. by apply to_object_array_legal. }
  pose proof (sheet_rows_length_le header rest) as Hle.
  apply Forall_forall. intros [r row] [Hr Hrow]%elem_of_enumerate. split; simpl.
  - rewrite Forall_forall in Hlegal. apply Hlegal. by eapply list_elem_of_lookup_2.
  - intros _. lia.
Qed.

Lemma exported_sheet_cells header rest r c :
  cells (exported_sheet header rest) !! (r, c)
  = (fun v => written r v None)
      <$> (lookupZ (sheet_rows header rest) (r - 1) ≫= fun row => lookupZ row (c - 1)).
Proof.
  unfold exported_sheet.
  assert (cells (put_rows 1 (sheet_rows header rest) sheet0) !! (r, c)
          = (fun v => written r v None)
              <$> (lookupZ (sheet_rows header rest) (r - 1)
                     ≫= fun row => lookupZ row (c - 1))) as H.
  { rewrite put_rows_lookup. destruct sheet0_facts as (-> & _).
    rewrite lookup_empty. by destruct (_ ≫= _). }
  by destruct header.
Qed.

(** ** C1: rows shorter than the header *)

(** C1 (as amended): a grid whose longest data row has as many cells as the
    header, whose cells have no control characters, and that fits the
    sheet's limits, is written without an error; a data row with fewer cells
    than the header is filled up with empty cells. *)
Theorem short_rows_are_padded (header : list pystr) (rest : list (list pystr))
    (filename : pystr) (w : World) :
  max_list (length <$> rest) = length header ->
  Forall (Forall clean) (header :: rest) ->
  len (header :: rest) <= 1048576 ->
  len header <= 18278 ->
  writable w filename = true ->
  exists w' ws,
    export_to_excel (header :: rest) filename w = (Ok tt, w') /\
    written_sheet w' filename = Some ws /\
    forall (i : nat) row, rest !! i = Some row ->
      forall j : nat, (j < length header)%nat ->
        exists cell,
          cells ws !! (Z.of_nat i + 2, Z.of_nat j + 1) = Some cell /\
          value cell = stored (row !! j).
Proof.
  intros Hmax Hclean Hlen Hn Hw.
  assert (exportable header rest) as Hexp.
  { split; [by right|]. split; [by apply sheet_rows_ok|done]. }
  eexists _, (exported_sheet header rest).
  split; [by apply export_to_excel_closed|].
  split; [apply written_sheet_save|].
  intros i row Hrow j Hj. rewrite exported_sheet_cells.
  assert (sheet_rows header rest !! S i
          = Some ((Some <$> row) ++ replicate (length header - length row) None)) as Hi.
  { unfold sheet_rows. destruct header as [|h header]; [simpl in Hj; lia|].
    change (to_object_array rest !! i
            = Some ((Some <$> row)
                    ++ replicate (length (h :: header) - length row) None)).
    unfold to_object_array. by rewrite list_lookup_fmap, Hrow, Hmax. }
  unfold lookupZ. rewrite decide_True by lia.
  replace (Z.to_nat (Z.of_nat i + 2 - 1)) with (S i) by lia.
  rewrite Hi. simpl. rewrite decide_True by lia.
  replace (Z.to_nat (Z.of_nat j + 1 - 1)) with j by lia.
  assert (length row <= length header)%nat as Hle.
  { rewrite <- Hmax. apply max_list_ge, list_elem_of_fmap. exists row.
    split; [done|]. by eapply list_elem_of_lookup_2. }
  destruct (decide (j < length row)%nat) as [Hlt|Hge].
  - rewrite lookup_app_l by (by rewrite length_fmap).
    rewrite list_lookup_fmap. destruct (row !! j) as [s|] eqn:Hs.
    + simpl. eexists. split; [done|]. by rewrite written_value.
    + apply lookup_ge_None in Hs. lia.
  - rewrite lookup_app_r by (rewrite length_fmap; lia).
    rewrite lookup_replicate_2 by (rewrite length_fmap; lia).
    rewrite (proj2 (lookup_ge_None row j)) by lia.
    simpl. eexists. split; [done|]. by rewrite written_value.
Qed.

(** ** The values of a sheet, row by row *)





(** ** C3: extracting, then exporting *)


(** ** C4: the grid A, B *)

(** C4: for the grid [["A","B"],["1","2"],["33","4"]] the sheet has the
    bold, centered first row A, B, the left-aligned rows 1, 2 and 33, 4, and
    the widths 4 for column A and 3 for column B. *)
Theorem export_grid_AB (filename : pystr) (w : World) :
  writable w filename = true ->
  exists w' ws,
    export_to_excel grid_AB filename w = (Ok tt, w') /\
    written_sheet w' filename = Some ws /\
    cells ws = list_to_map
                 [((1, 1), header_cell (u "A")); ((1, 2), header_cell (u "B"));
                  ((2, 1), body_cell (u "1")); ((2, 2), body_cell (u "2"));
                  ((3, 1), body_cell (u "33")); ((3, 2), body_cell (u "4"))] /\
    column_dimensions ws = list_to_map [(u "A", {| width := 4 |});
                                        (u "B", {| width := 3 |})] /\
    get_column_letter 1 = Ok (u "A") /\ get_column_letter 2 = Ok (u "B").
Proof.
  intros Hw. rewrite export_to_excel_unfold.
  set (ws := exported_sheet [u "A"; u "B"] [[u "1"; u "2"]; [u "33"; u "4"]]).
  assert (build_workbook grid_AB = Ok (set_active wb0 ws)) as -> by (vm_compute; reflexivity).
  unfold save. rewrite Hw. eexists _, ws. split; [done|].
  split; [apply written_sheet_save|].
  split; [vm_compute; reflexivity|]. split; [vm_compute; reflexivity|]. done.
Qed.

(** ** The pipeline *)

Lemma find_locator_None c soup :
  Forall (fun e => ~ table_with_class c e) (descendants soup) ->
  find (table_locator c) soup = None.
Proof.
  intros Hnone. unfold find.
  pose proof (find_all_loop_first (table_locator c) (descendants soup)) as H.
  destruct (find_all_loop _ _ _ _) as [|r rest]; [done|].
  destruct H as (_ & Hr & l1 & l2 & Hd & _).
  rewrite Forall_forall in Hnone. destruct (Hnone r).
  - rewrite Hd. apply elem_of_app. right. by left.
  - by apply search_table_locator.
Qed.

Section PipelineFacts.

Variable requests_get : pystr -> list (pystr * pystr) -> result Response.
Variable BeautifulSoup : pystr -> PageElement.

Lemma raise_for_status_error r :
  400 <= status_code r < 600 ->
  exists msg, raise_for_status r = Raise (Exn HTTPError msg).
Proof.
  intros Hr. unfold raise_for_status.
  destruct ((400 <=? status_code r) && (status_code r <? 500)) eqn:H4; [by eexists|].
  replace ((500 <=? status_code r) && (status_code r <? 600)) with true by lia.
  by eexists.
Qed.

Lemma fetch_webpage_fails url w :
  fetch_fails requests_get url ->
  exists msg,
    fetch_webpage requests_get url w
    = (Ok None, printed w (u "Failed to fetch the web page: " ++ msg)).
Proof.
  unfold fetch_webpage. intros [(r & -> & Hr) | (e & -> & He)]; cbn [rbind].
  - destruct (raise_for_status_error r Hr) as (msg & ->). cbn [rbind exn_cls is_RequestException].
    by exists msg.
  - rewrite He. by exists (exn_msg e).
Qed.

Lemma main_unfold w :
  main requests_get BeautifulSoup w
  = match fetch_webpage requests_get main_url w with
    | (Ok (Some (c :: html)), w1) =>
        match find (table_locator (u "tablaCat")) (BeautifulSoup (c :: html)) with
        | Some table =>
            match export_to_excel (extract_table_data table) (u "table_data.xlsx")
                    (printed w1 (u "Table found!")) with
            | (Ok _, w2) =>
                (Ok tt, printed w2 (u "Data has been exported to table_data.xlsx"))
            | (Raise e, w2) => (Raise e, w2)
            end
        | None => (Ok tt, printed w1 (u "Table not found."))
        end
    | (Ok _, w1) => (Ok tt, w1)
    | (Raise e, w1) => (Raise e, w1)
    end.
Proof.
  unfold main, bindM. destruct (fetch_webpage requests_get main_url w) as [[[[|c html]|]|e] w1]; try done.
  unfold parse_html. cbv zeta. change {| names := [u "table"]; class_ := Some (u "tablaCat") |}
    with (table_locator (u "tablaCat")).
  destruct (find _ _); [|done]. unfold print at 1. cbn iota beta.
  fold (printed w1 (u "Table found!")).
  destruct (export_to_excel _ _ _) as [[[]|e] w2]; done.
Qed.

End PipelineFacts.

(** ** C9: the empty grid *)

(** C9: on the empty grid [export_to_excel] raises [IndexError] where it
    takes the first row as the header, and leaves the world as it was: no
    file is written; taking the header fails for the empty grid only; and
    [main] does not handle the error: for a table without rows it ends
    with this error after [Table found!]. *)
Theorem export_empty_grid :
  (forall filename w,
     export_to_excel [] filename w
     = (Raise (Exn IndexError (u "list index out of range")), w)) /\
  (forall data : list (list pystr),
     raised (getitem data 0) IndexError <-> data = []) /\
  (forall requests_get BeautifulSoup w html table,
     fetch_webpage requests_get main_url w = (Ok (Some html), w) ->
     html <> [] ->
     find (table_locator (u "tablaCat")) (BeautifulSoup html) = Some table ->
     extract_table_data table = [] ->
     main requests_get BeautifulSoup w
     = (Raise (Exn IndexError (u "list index out of range")),
        printed w (u "Table found!")) /\
     files (printed w (u "Table found!")) = files w).
Proof.
  split; [done|]. split.
  - intros data. unfold raised. destruct data as [|header rest]; simpl.
    + split; [done|]. intros _. by eexists.
    + split; [by intros [? ?]|done].
  - intros requests_get BeautifulSoup w html table Hf Hne Hfind Hgrid.
    split; [|done]. rewrite main_unfold, Hf.
    destruct html as [|c html]; [done|]. by rewrite Hfind, Hgrid.
Qed.

(** ** C5: a failed fetch *)

(** C5 (as amended): when the response has a status from 400 to 599, or
    the request raises a network error, [fetch_webpage] prints a message
    and returns [None] without raising, and the pipeline ends without a
    file written. *)
Theorem fetch_fails_softly
    (requests_get : pystr -> list (pystr * pystr) -> result Response)
    (BeautifulSoup : pystr -> PageElement) (url : pystr) (w : World) :
  fetch_fails requests_get url ->
  exists msg,
    fetch_webpage requests_get url w
    = (Ok None, printed w (u "Failed to fetch the web page: " ++ msg)) /\
    (url = main_url ->
     main requests_get BeautifulSoup w
     = (Ok tt, printed w (u "Failed to fetch the web page: " ++ msg)) /\
     files (printed w (u "Failed to fetch the web page: " ++ msg)) = files w).
Proof.
  intros Hfail. destruct (fetch_webpage_fails requests_get url w Hfail) as (msg & Hf).
  exists msg. split; [done|]. intros ->. split; [|done].
  by rewrite main_unfold, Hf.
Qed.

(** ** C6: no table of the class *)

(** C6 (as amended): when a non-empty document was fetched and none of its
    elements is a table of the class [tablaCat], the pipeline prints
    [Table not found.], raises nothing and writes no file. *)
Theorem table_not_found
    (requests_get : pystr -> list (pystr * pystr) -> result Response)
    (BeautifulSoup : pystr -> PageElement) (w w1 : World) (html : pystr) :
  fetch_webpage requests_get main_url w = (Ok (Some html), w1) ->
  html <> [] ->
  Forall (fun e => ~ table_with_class (u "tablaCat") e)
         (descendants (BeautifulSoup html)) ->
  main requests_get BeautifulSoup w = (Ok tt, printed w1 (u "Table not found.")) /\
  files (printed w1 (u "Table not found.")) = files w.
Proof.
  intros Hf Hne Hnone. rewrite main_unfold, Hf.
  destruct html as [|c html]; [done|].
  rewrite find_locator_None by done. split; [done|].
  unfold fetch_webpage in Hf.
  destruct (let* response := requests_get main_url browser_headers in _)%res as [t|e];
    [by injection Hf as _ <-|].
  destruct (is_RequestException (exn_cls e)); [|done].
  unfold bindM, print, ret in Hf. simpl in Hf. by injection Hf.
Qed.

(** ** Concrete runs *)

(** C1, as stated, fails: a header of three cells and a single data row of
    two cells raise [ValueError] when the data frame is built. *)
Lemma short_row_raises :
  export_to_excel [[u "A"; u "B"; u "C"]; [u "1"; u "2"]] xlsx empty_world
  = (Raise (Exn ValueError (u "3 columns passed, passed data had 2 columns")),
     empty_world).
Proof. vm_compute. reflexivity. Qed.

Lemma short_rows_are_padded_witness :
  exists w' ws,
    export_to_excel ([u "A"; u "B"] :: [[u "1"; u "2"]; [u "3"]]) xlsx empty_world
    = (Ok tt, w') /\
    written_sheet w' xlsx = Some ws /\
    forall (i : nat) row, [[u "1"; u "2"]; [u "3"]] !! i = Some row ->
      forall j : nat, (j < length [u "A"; u "B"])%nat ->
        exists cell,
          cells ws !! (Z.of_nat i + 2, Z.of_nat j + 1) = Some cell /\
          value cell = stored (row !! j).
Proof.
  apply (short_rows_are_padded [u "A"; u "B"] [[u "1"; u "2"]; [u "3"]]
           xlsx empty_world).
  - reflexivity.
  - repeat constructor.
  - vm_compute. discriminate.
  - vm_compute. discriminate.
  - reflexivity.
Defined.

(** C2, as stated, fails: the only column of the grid [[""]] is entirely
    empty, and its width is 2, not 0. *)
Lemma empty_column_width :
  exists w' ws,
    export_to_excel [[u ""]] xlsx empty_world = (Ok tt, w') /\
    written_sheet w' xlsx = Some ws /\
    cells ws = {[ (1, 1) := header_cell (u "") ]} /\
    get_column_letter 1 = Ok (u "A") /\
    column_dimensions ws !! u "A" = Some {| width := 2 |} /\
    width {| width := 2 |} <> 0.
Proof.
  eexists _, (exported_sheet [u ""] []).
  split; [apply export_to_excel_closed; [|done]|].
  { split; [by left|]. split; [|vm_compute; discriminate].
    repeat constructor; simpl; (done || lia). }
  split; [apply written_sheet_save|].
  split; [vm_compute; reflexivity|]. split; [done|].
  split; [vm_compute; reflexivity|]. done.
Qed.

Lemma column_widths_fit_witness :
  exists letter longest,
    get_column_letter 1 = Ok letter /\
    column_dimensions (exported_sheet [u "A"; u "B"] [[u "1"; u "2"]; [u "33"; u "4"]])
      !! letter = Some {| width := longest + 2 |} /\
    (forall r cell,
       cells (exported_sheet [u "A"; u "B"] [[u "1"; u "2"]; [u "33"; u "4"]])
         !! (r, 1) = Some cell ->
       len_value (value cell) <= longest) /\
    (exists r cell,
       cells (exported_sheet [u "A"; u "B"] [[u "1"; u "2"]; [u "33"; u "4"]])
         !! (r, 1) = Some cell /\
       len_value (value cell) = longest) /\
    ((forall r cell,
        cells (exported_sheet [u "A"; u "B"] [[u "1"; u "2"]; [u "33"; u "4"]])
          !! (r, 1) = Some cell ->
        value cell = None \/ value cell = Some []) ->
     column_dimensions (exported_sheet [u "A"; u "B"] [[u "1"; u "2"]; [u "33"; u "4"]])
       !! letter = Some {| width := 2 |}).
Proof.
  apply (column_widths_fit grid_AB xlsx empty_world
           {| stdout := [];
              files := {[ xlsx := set_active wb0
                                    (exported_sheet [u "A"; u "B"]
                                       [[u "1"; u "2"]; [u "33"; u "4"]]) ]};
              writable := fun _ => true |}).
  - vm_compute. reflexivity.
  - vm_compute. reflexivity.
  - exists 1. vm_compute. eauto.
Defined.



Lemma export_grid_AB_witness :
  exists w' ws,
    export_to_excel grid_AB xlsx empty_world = (Ok tt, w') /\
    written_sheet w' xlsx = Some ws /\
    cells ws = list_to_map
                 [((1, 1), header_cell (u "A")); ((1, 2), header_cell (u "B"));
                  ((2, 1), body_cell (u "1")); ((2, 2), body_cell (u "2"));
                  ((3, 1), body_cell (u "33")); ((3, 2), body_cell (u "4"))] /\
    column_dimensions ws = list_to_map [(u "A", {| width := 4 |});
                                        (u "B", {| width := 3 |})] /\
    get_column_letter 1 = Ok (u "A") /\ get_column_letter 2 = Ok (u "B").
Proof. apply (export_grid_AB xlsx empty_world). reflexivity. Defined.

(** C5, as stated, fails: [raise_for_status] lets a status of 600 pass, so
    the body is returned and nothing is printed. *)
Lemma status_600_is_returned :
  400 <= 600 /\
  fetch_webpage (server 600 (u "body")) main_url empty_world
  = (Ok (Some (u "body")), empty_world).
Proof. split; [lia|]. vm_compute. reflexivity. Qed.

Lemma fetch_fails_softly_witness :
  exists msg,
    fetch_webpage (server 404 (u "body")) main_url empty_world
    = (Ok None, printed empty_world (u "Failed to fetch the web page: " ++ msg)) /\
    (main_url = main_url ->
     main (server 404 (u "body")) one_paragraph empty_world
     = (Ok tt, printed empty_world (u "Failed to fetch the web page: " ++ msg)) /\
     files (printed empty_world (u "Failed to fetch the web page: " ++ msg))
     = files empty_world).
Proof.
  apply (fetch_fails_softly (server 404 (u "body")) one_paragraph main_url empty_world).
  left. eexists. split; [reflexivity|]. simpl. lia.
Defined.

(** C6, as stated, fails: an empty page has no table, yet nothing is
    printed, [Table not found.] included. *)
Lemma empty_page_prints_nothing :
  fetch_webpage (server 200 []) main_url empty_world = (Ok (Some []), empty_world) /\
  descendants (Tag (u "[document]") [] []) = [] /\
  main (server 200 []) (fun _ => Tag (u "[document]") [] []) empty_world
  = (Ok tt, empty_world) /\
  stdout empty_world = [].
Proof. split; [vm_compute; reflexivity|]. split; [done|]. split; [|done]. vm_compute. reflexivity. Qed.

Lemma table_not_found_witness :
  main (server 200 (u "<p>hello</p>")) one_paragraph empty_world
  = (Ok tt, printed empty_world (u "Table not found.")) /\
  files (printed empty_world (u "Table not found.")) = files empty_world.
Proof.
  apply (table_not_found (server 200 (u "<p>hello</p>")) one_paragraph
           empty_world empty_world (u "<p>hello</p>")).
  - vm_compute. reflexivity.
  - vm_compute. discriminate.
  - repeat constructor; intros (attrs & cs & Heq & _); vm_compute in Heq; discriminate.
Defined.

Lemma export_empty_grid_witness :
  main (server 200 (u "<table>")) rowless_page empty_world
  = (Raise (Exn IndexError (u "list index out of range")),
     printed empty_world (u "Table found!")) /\
  files (printed empty_world (u "Table found!")) = files empty_world.
Proof.
  destruct export_empty_grid as (_ & _ & H).
  apply (H (server 200 (u "<table>")) rowless_page empty_world (u "<table>")
           (Tag (u "table") [(u "class", AttrList [u "tablaCat"])] [])).
  - vm_compute. reflexivity.
  - vm_compute. discriminate.
  - vm_compute. reflexivity.
  - vm_compute. reflexivity.
Defined.

Lemma nested_table_rows_witness :
  (exists k, (0 < k)%nat /\
     find_all tr_filter outer_table !! k
     = Some inner_row /\
     extract_table_data outer_table !! k
     = Some ((fun col => strip (text col))
               <$> find_all cell_filter
                     inner_row)) /\
  (exists cells, extract_table_data outer_table !! 0%nat = Some cells /\
                 cells !! 1%nat = Some (strip (text outer_cell))) /\
  (forall ncell,
     ncell ∈ find_all cell_filter
               inner_row ->
     exists a b, text outer_cell = a ++ text ncell ++ b) /\
  (forall cls s, Str cls s ∈ descendants inner_table ->
     cls = NavigableString \/ cls = CData ->
     exists a b, text outer_cell = a ++ s ++ b).
Proof.
  apply (nested_table_rows outer_table
           outer_row
           outer_cell inner_table
           inner_row
           0 1 []
           [Tag (u "td") [] [Str NavigableString (u "x")];
            Tag (u "td") [] [Str NavigableString (u "y")]]).
  - vm_compute. reflexivity.
  - vm_compute. reflexivity.
  - vm_compute. apply elem_of_cons. right. apply elem_of_cons. by left.
  - vm_compute. apply elem_of_cons. by left.
  - reflexivity.
Defined.

(** The grid of [outer_table]: the outer row also holds the cells of the
    nested row, and the nested row follows as a row of its own. *)
Example extract_outer_table :
  extract_table_data outer_table
  = [[u "a"; u "b xy"; u "x"; u "y"]; [u "x"; u "y"]].
Proof. vm_compute. reflexivity. Qed.

Lemma extract_table_data_cells_witness :
  let rows := find_all tr_filter small_table in
  length (extract_table_data small_table) = length rows /\
  extract_table_data small_table = [[u "Year"; u "Value"]; [u "2020"; u "7"]] /\
  extract_table_data (Tag (u "table") [] [Tag (u "tr") [] []]) = [[]].
Proof.
  split; [apply (extract_table_data_cells small_table)|].
  split; vm_compute; reflexivity.
Defined.

(** * Further properties *)

(** ** More on stripping *)

Lemma lstrip_fixed (t : pystr) :
  (forall c, head t = Some c -> isspace c = false) -> lstrip t = t.
Proof. destruct t as [|c t]; [done|]. intros H. simpl. by rewrite (H c). Qed.

Lemma rstrip_fixed (t : pystr) :
  (forall c, last t = Some c -> isspace c = false) -> rstrip t = t.
Proof.
  intros H. unfold rstrip. rewrite lstrip_fixed; [apply reverse_involutive|].
  intros c. rewrite head_reverse. apply H.
Qed.

Lemma strip_idempotent (s : pystr) : strip (strip s) = strip s.
Proof.
  destruct (strip_spec s) as (a & b & _ & _ & _ & Hh & Hl).
  unfold strip at 1. rewrite lstrip_fixed by done. by apply rstrip_fixed.
Qed.

Lemma lstrip_spaces (s : pystr) :
  Forall (fun c => isspace c = true) s -> lstrip s = [].
Proof. induction 1 as [|c s Hc _ IH]; [done|]. simpl. by rewrite Hc. Qed.

Lemma strip_nil_iff (s : pystr) :
  strip s = [] <-> Forall (fun c => isspace c = true) s.
Proof.
  split.
  - intros Hs. destruct (strip_spec s) as (a & b & Heq & Ha & Hb & _).
    rewrite Heq, Hs. apply Forall_app. split; [done|]. by apply Forall_app.
  - intros Hs. unfold strip. by rewrite lstrip_spaces.
Qed.

(** X1: every cell of the extracted grid is trimmed already: stripping it
    again changes nothing, and it neither starts nor ends with
    whitespace. *)
Theorem extracted_cells_are_trimmed (table : PageElement)
    (row : list pystr) (cell : pystr) :
  row ∈ extract_table_data table -> cell ∈ row ->
  strip cell = cell /\
  (forall c, head cell = Some c -> isspace c = false) /\
  (forall c, last cell = Some c -> isspace c = false).
Proof.
  rewrite extract_table_data_fmap.
  intros (r & -> & _)%list_elem_of_fmap Hcell.
  apply list_elem_of_fmap in Hcell as (col & -> & _).
  split; [apply strip_idempotent|].
  destruct (strip_spec (text col)) as (a & b & _ & _ & _ & Hh & Hl). done.
Qed.

Lemma extracted_cells_are_trimmed_witness :
  strip (u "Year") = u "Year" /\
  (forall c, head (u "Year") = Some c -> isspace c = false) /\
  (forall c, last (u "Year") = Some c -> isspace c = false).
Proof.
  apply (extracted_cells_are_trimmed small_table [u "Year"; u "Value"] (u "Year")).
  - vm_compute. apply elem_of_cons. by left.
  - vm_compute. apply elem_of_cons. by left.
Defined.

(** X2: row [i] of the grid has one entry for each [td] or [th] element
    below the [i]-th [tr], none dropped; an entry is the empty string
    exactly when the text of its cell is whitespace only (or empty). *)
Theorem blank_cells_are_kept (table row : PageElement) (i : nat) :
  find_all tr_filter table !! i = Some row ->
  exists cells,
    extract_table_data table !! i = Some cells /\
    length cells = length (find_all cell_filter row) /\
    forall j col, find_all cell_filter row !! j = Some col ->
      (cells !! j = Some [] <-> Forall (fun c => isspace c = true) (text col)).
Proof.
  intros Hrow. exists (row_cells row).
  rewrite extract_table_data_fmap, list_lookup_fmap, Hrow.
  split; [reflexivity|]. unfold row_cells. rewrite length_fmap. split; [done|].
  intros j col Hcol. rewrite list_lookup_fmap, Hcol. simpl.
  rewrite <- strip_nil_iff.
  split; [intros [= H]; exact H | intros H; by rewrite H].
Qed.

Lemma blank_cells_are_kept_witness :
  exists cells,
    extract_table_data (Tag (u "table") [] [blank_row]) !! 0%nat = Some cells /\
    length cells = length (find_all cell_filter blank_row) /\
    forall j col, find_all cell_filter blank_row !! j = Some col ->
      (cells !! j = Some [] <-> Forall (fun c => isspace c = true) (text col)).
Proof.
  apply (blank_cells_are_kept (Tag (u "table") [] [blank_row]) blank_row 0).
  vm_compute. reflexivity.
Defined.

(** ** Text, child by child *)

Lemma own_strings_child_text (c : PageElement) :
  concat (flat_map (fun d => match d with
                             | Str cls s => if interesting cls then [s] else []
                             | Tag _ _ _ => []
                             end) (c :: descendants c))
  = child_text c.
Proof.
  destruct c as [n a cs|cls s].
  - change (concat (all_strings (Tag n a cs)) = text (Tag n a cs)).
    unfold text. by rewrite join_nil_concat.
  - simpl. destruct (interesting cls); simpl; by rewrite ?app_nil_r.
Qed.

Lemma all_strings_children name attrs cs :
  concat (all_strings (Tag name attrs cs)) = concat (child_text <$> cs).
Proof.
  unfold all_strings.
  change (descendants (Tag name attrs cs))
    with (flat_map (fun c => c :: descendants c) cs).
  induction cs as [|c cs IH]; [done|].
  change (flat_map (fun c => c :: descendants c) (c :: cs))
    with ((c :: descendants c) ++ flat_map (fun c => c :: descendants c) cs).
  rewrite flat_map_app, concat_app, IH, own_strings_child_text. done.
Qed.

Lemma child_text_plain (c : PageElement) : child_text c = plain_text c.
Proof.
  induction c as [name attrs cs IH | cls s] using PageElement_ind'.
  - change (text (Tag name attrs cs) = concat (plain_text <$> cs)).
    unfold text. rewrite join_nil_concat, all_strings_children. f_equal.
    induction IH as [|c cs Hc _ IHcs]; [done|]. rewrite !fmap_cons. by f_equal.
  - by destruct cls.
Qed.

(** X3: the text of an element whose name is none of [rt], [rp], [style],
    [script] and [template] is what reading the tree gives: every plain
    or CDATA string below it, at any depth and in document order, and
    nothing for a comment or a string of another class; so the text of
    the children taken in two parts is the two texts joined. *)
Theorem text_of_children (name : pystr) (attrs : list (pystr * AttrValue))
    (cs : list PageElement) :
  name ∉ string_containers ->
  text (Tag name attrs cs) = plain_text (Tag name attrs cs) /\
  (forall c1 c2, cs = c1 ++ c2 ->
     text (Tag name attrs cs)
     = text (Tag name attrs c1) ++ text (Tag name attrs c2)).
Proof.
  intros _.
  assert (forall l, text (Tag name attrs l) = plain_text (Tag name attrs l)) as H.
  { intros l. apply (child_text_plain (Tag name attrs l)). }
  split; [apply H|]. intros c1 c2 ->. rewrite !H. simpl.
  by rewrite fmap_app, concat_app.
Qed.

Lemma text_of_children_witness :
  text mixed_cell = plain_text mixed_cell /\
  (forall c1 c2,
     [Str NavigableString (u "a"); Str Comment (u "c");
      Tag (u "b") [] [Str NavigableString (u "d")];
      Tag (u "script") [] [Str Script (u "var x;")]] = c1 ++ c2 ->
     text mixed_cell
     = text (Tag (u "td") [] c1) ++ text (Tag (u "td") [] c2)).
Proof.
  apply (text_of_children (u "td") []
           [Str NavigableString (u "a"); Str Comment (u "c");
            Tag (u "b") [] [Str NavigableString (u "d")];
            Tag (u "script") [] [Str Script (u "var x;")]]).
  vm_compute. intros H.
  repeat (apply elem_of_cons in H as [H|H]; [discriminate H|]).
  by apply elem_of_nil in H.
Defined.

(** ** Searching below a descendant *)

Lemma find_all_descendant st (x y : PageElement) :
  y ∈ descendants x ->
  exists a b, find_all st x = a ++ find_all st y ++ b.
Proof.
  intros (l1 & l2 & Hd)%descendants_infix. rewrite !find_all_filter, Hd.
  rewrite filter_app, filter_cons, filter_app.
  exists (filter (fun d => search st d = true) l1
          ++ (if decide (search st y = true) then [y] else [])),
         (filter (fun d => search st d = true) l2).
  destruct (decide (search st y = true)); by rewrite <- ?app_assoc.
Qed.

(** X4: row [i] of the grid holds, as one block and in order, the cells of
    every element below the [i]-th [tr]; so the cells of a table nested in
    a row are entries of that row as well. *)
Theorem nested_cells_join_outer_row (table row inner : PageElement) (i : nat) :
  find_all tr_filter table !! i = Some row ->
  inner ∈ descendants row ->
  exists cells before after,
    extract_table_data table !! i = Some cells /\
    cells = before ++ ((fun col => strip (text col)) <$> find_all cell_filter inner)
                   ++ after.
Proof.
  intros Hrow Hinner.
  destruct (find_all_descendant cell_filter row inner Hinner) as (a & b & Hab).
  exists (row_cells row), ((fun col => strip (text col)) <$> a),
         ((fun col => strip (text col)) <$> b).
  rewrite extract_table_data_fmap, list_lookup_fmap, Hrow.
  split; [reflexivity|]. unfold row_cells. by rewrite Hab, !fmap_app.
Qed.

Lemma nested_cells_join_outer_row_witness :
  exists cells before after,
    extract_table_data outer_table !! 0%nat = Some cells /\
    cells = before ++ ((fun col => strip (text col)) <$> find_all cell_filter inner_table)
                   ++ after.
Proof.
  apply (nested_cells_join_outer_row outer_table outer_row inner_table 0).
  - vm_compute. reflexivity.
  - vm_compute. do 4 (apply elem_of_cons; right). apply elem_of_cons. by left.
Defined.

(** ** [find] and [find_all] *)

(** X5: [find] returns the first result of [find_all] with the same filter,
    and nothing when [find_all] returns nothing. *)
Theorem find_is_first_of_find_all (st : SoupStrainer) (e : PageElement) :
  find st e = head (find_all st e).
Proof.
  rewrite find_all_filter. unfold find.
  pose proof (find_all_loop_first st (descendants e)) as H.
  destruct (find_all_loop st (Some 1%nat) (descendants e) []) as [|r rest].
  - symmetry. apply head_None. induction H as [|x l Hx _ IH]; [done|].
    rewrite filter_cons, decide_False by congruence. done.
  - destruct H as (_ & Hr & l1 & l2 & -> & Hl1).
    rewrite filter_app, filter_cons, decide_True by done.
    assert (filter (fun d => search st d = true) l1 = []) as ->; [|done].
    induction Hl1 as [|x l Hx _ IH]; [done|].
    rewrite filter_cons, decide_False by congruence. done.
Qed.

(** ** Class names *)

Lemma space_in_join (x y : pystr) (l : list pystr) :
  32%N ∈ join (u " ") (x :: y :: l).
Proof.
  change (join (u " ") (x :: y :: l)) with (x ++ u " " ++ join (u " ") (y :: l)).
  apply elem_of_app. right. apply elem_of_app. left. by left.
Qed.

(** X6: for a class name that is not empty and has no space, a [table]
    element is matched by the locator exactly when one of the tokens of its
    [class] attribute is the name (or the attribute is that very string):
    other classes beside it do not matter, and an element without the
    attribute never matches. *)
Theorem locator_matches_class_token (c : pystr)
    (attrs : list (pystr * AttrValue)) (cs : list PageElement) :
  c <> [] -> 32%N ∉ c ->
  (search (table_locator c) (Tag (u "table") attrs cs) = true <->
   match attrs_get attrs (u "class") with
   | Some (AttrList toks) => c ∈ toks
   | Some (AttrStr s) => s = c
   | None => False
   end).
Proof.
  intros Hne Hsp. rewrite search_table_locator. unfold table_with_class.
  assert (has_class attrs c <->
          match attrs_get attrs (u "class") with
          | Some (AttrList toks) => c ∈ toks
          | Some (AttrStr s) => s = c
          | None => False
          end) as Hc.
  { unfold has_class. destruct (attrs_get attrs (u "class")) as [[s|toks]|]; [done| |done].
    split; [|by left]. intros [H|H]; [done|].
    destruct toks as [|x [|y toks]].
    - by subst.
    - simpl in H. subst. by left.
    - destruct Hsp. rewrite <- H. apply space_in_join. }
  rewrite <- Hc. split.
  - by intros (a & cs' & [= <- <-] & H).
  - intros H. by exists attrs, cs.
Qed.

Lemma locator_matches_class_token_witness :
  search (table_locator (u "tablaCat"))
    (Tag (u "table") [(u "class", AttrList [u "data"; u "tablaCat"])] []) = true <->
  match attrs_get [(u "class", AttrList [u "data"; u "tablaCat"])] (u "class") with
  | Some (AttrList toks) => u "tablaCat" ∈ toks
  | Some (AttrStr s) => s = u "tablaCat"
  | None => False
  end.
Proof.
  apply (locator_matches_class_token (u "tablaCat")
           [(u "class", AttrList [u "data"; u "tablaCat"])] []).
  - vm_compute. discriminate.
  - vm_compute. intros H. repeat (apply elem_of_cons in H as [H|H]; [discriminate H|]).
    by apply elem_of_nil in H.
Defined.

(** ** When the writer accepts a grid *)

Lemma Forall_enumerate {A} (P : Z * A -> Prop) (l : list A) (start : Z) :
  Forall P (enumerate l start) <->
  forall (i : nat) x, l !! i = Some x -> P (start + Z.of_nat i, x).
Proof.
  rewrite Forall_lookup. split.
  - intros H i x Hx. apply (H i). by rewrite enumerate_lookup, Hx.
  - intros H i [k x]. rewrite enumerate_lookup.
    destruct (l !! i) as [y|] eqn:Hy; [|done]. intros [= <- <-]. by apply H.
Qed.

Lemma legal_padded (row : list pystr) (k : nat) :
  Forall legal ((Some <$> row) ++ replicate k None)
  <-> Forall (fun s => legal (Some s)) row.
Proof.
  rewrite Forall_app, Forall_fmap. split; [by intros [? _]|].
  intros H. split; [done|]. by apply Forall_replicate.
Qed.

Lemma sheet_rows_legal header rest :
  frame_ok header rest ->
  (Forall (Forall legal) (sheet_rows header rest)
   <-> Forall (Forall (fun s => legal (Some s))) (header :: rest)).
Proof.
  intros Hframe. unfold sheet_rows. rewrite !Forall_cons, Forall_fmap.
  assert (Forall (Forall legal)
            match header with [] => [] | _ => to_object_array rest end
          <-> Forall (Forall (fun s => legal (Some s))) rest) as H; [|by rewrite H].
  destruct header as [|h header].
  - split; [|constructor]. intros _. destruct Hframe as [->|Hk]; [constructor|].
    apply Forall_forall. intros row Hrow.
    assert (length row <= max_list (length <$> rest))%nat as Hle.
    { apply max_list_ge, list_elem_of_fmap. by exists row. }
    rewrite Hk in Hle. destruct row; [constructor|simpl in Hle; lia].
  - unfold to_object_array. rewrite Forall_fmap. apply Forall_iff.
    intros row. apply legal_padded.
Qed.

Lemma sheet_rows_len header rest :
  header <> [] -> len (sheet_rows header rest) = len (header :: rest).
Proof.
  intros Hne. unfold sheet_rows, to_object_array, len.
  destruct header; [done|]. simpl. by rewrite length_fmap.
Qed.

Lemma exportable_iff header rest :
  exportable header rest <->
  frame_ok header rest /\
  Forall (Forall (fun s => legal (Some s))) (header :: rest) /\
  (header <> [] -> len (header :: rest) <= 1048576) /\
  len header <= 18278.
Proof.
  unfold exportable. split.
  - intros (Hframe & Hrows & Hn). split; [done|].
    assert (Forall (Forall legal) (sheet_rows header rest)) as Hlegal.
    { apply Forall_lookup. intros i row Hrow.
      rewrite Forall_enumerate in Hrows. by destruct (Hrows i row Hrow) as [? _]. }
    split; [by apply sheet_rows_legal|]. split; [|done].
    intros Hne. rewrite <- sheet_rows_len by done.
    assert (1 <= len header) by (destruct header; [done|unfold len; simpl; lia]).
    pose proof (enumerate_row_ok_bound _ (len header) Hrows
                  (sheet_rows_lengths header rest Hframe)). lia.
  - intros (Hframe & Hlegal & Hlen & Hn). split; [done|]. split; [|done].
    apply sheet_rows_legal in Hlegal; [|done].
    apply Forall_enumerate. intros i row Hrow. split; simpl.
    + rewrite Forall_lookup in Hlegal. by apply (Hlegal i).
    + intros Hrne. assert (header <> []) as Hne.
      { intros ->. unfold sheet_rows in Hrow. destruct i as [|[|i]]; simplify_eq/=. }
      specialize (Hlen Hne). rewrite <- sheet_rows_len in Hlen by done.
      apply lookup_lt_Some in Hrow. unfold len in Hlen. lia.
Qed.

(** X7: [export_to_excel] ends normally exactly for the grids the writer
    accepts, written to a path that can be written. *)
Theorem export_succeeds_iff (data : list (list pystr)) (filename : pystr)
    (w : World) :
  (exists w', export_to_excel data filename w = (Ok tt, w')) <->
  writer_accepts data /\ writable w filename = true.
Proof.
  unfold writer_accepts. split.
  - intros (w' & (header & rest & -> & Hexp & Hw & _)%export_to_excel_inv).
    split; [|done]. exists header, rest. split; [done|]. by apply exportable_iff.
  - intros ((header & rest & -> & H) & Hw). eexists.
    apply export_to_excel_closed; [|done]. by apply exportable_iff.
Qed.

(** ** The cells of an exported sheet *)

Lemma lookupZ_fmap {A B} (f : A -> B) (l : list A) (i : Z) :
  lookupZ (f <$> l) i = f <$> lookupZ l i.
Proof. unfold lookupZ. case_decide; [apply list_lookup_fmap|done]. Qed.

Lemma sheet_rows_lookup header rest r c :
  frame_ok header rest -> 1 <= r -> 1 <= c <= len header ->
  r <= len (header :: rest) ->
  lookupZ (sheet_rows header rest) (r - 1) ≫= (fun row => lookupZ row (c - 1))
  = Some (lookupZ (header :: rest) (r - 1) ≫= fun row => lookupZ row (c - 1)).
Proof.
  intros Hframe Hr Hc Hrl.
  assert (header <> []) as Hne by (intros ->; unfold len in Hc; simpl in Hc; lia).
  unfold sheet_rows. rewrite !lookupZ_cons.
  destruct (decide (r - 1 = 0)) as [_|Hr1]; simpl.
  - destruct (lookupZ_lt header (c - 1)) as [s Hs]; [lia|].
    by rewrite lookupZ_fmap, Hs.
  - destruct header as [|h header]; [done|].
    destruct Hframe as [->|Hk]; [unfold len in Hrl; simpl in Hrl; lia|].
    destruct (lookupZ_lt rest (r - 1 - 1)) as [row Hrow];
      [unfold len in *; simpl in Hrl; lia|].
    rewrite Hrow. simpl.
    assert (lookupZ (to_object_array rest) (r - 1 - 1)
            = Some ((Some <$> row)
                    ++ replicate (length (h :: header) - length row) None)) as ->.
    { unfold to_object_array. by rewrite lookupZ_fmap, Hrow, Hk. }
    simpl.
    assert (length row <= length (h :: header))%nat as Hle.
    { rewrite <- Hk. apply max_list_ge, list_elem_of_fmap. exists row.
      split; [done|]. unfold lookupZ in Hrow. case_decide; [|done].
      by eapply list_elem_of_lookup_2. }
    unfold lookupZ. rewrite !decide_True by lia.
    destruct (decide (Z.to_nat (c - 1) < length row)%nat) as [Hlt|Hge].
    + rewrite lookup_app_l by (by rewrite length_fmap).
      rewrite list_lookup_fmap.
      destruct (lookup_lt_is_Some_2 _ _ Hlt) as [s ->]. done.
    + rewrite lookup_app_r by (rewrite length_fmap; lia).
      rewrite lookup_replicate_2
        by (rewrite length_fmap; unfold len in Hc; simpl in *; lia).
      by rewrite (proj2 (lookup_ge_None row _)) by lia.
Qed.

Lemma exported_sheet_rect header rest :
  frame_ok header rest -> header <> [] ->
  rect (exported_sheet header rest) (len (header :: rest)) (len header).
Proof.
  intros Hframe Hne. rewrite <- sheet_rows_len by done.
  destruct (exported_sheet_full header rest Hframe Hne) as (Hrect & _).
  unfold exported_sheet. by destruct header.
Qed.

Lemma exported_sheet_no_header rest :
  cells (exported_sheet [] rest) = ∅.
Proof.
  unfold exported_sheet. rewrite put_rows_nil_rows by (by repeat constructor).
  by destruct sheet0_facts as (-> & _).
Qed.

(** X8: in every exported sheet the cell at row [r], column [c] holds the
    first 32767 characters of cell [c] of row [r] of the grid, or nothing
    where the row is shorter than the header; with a header that is not
    empty the sheet has a cell at every position of the rows
    [1..len(data)] and the columns [1..len(header)] and nowhere else. *)
Theorem exported_sheet_holds_the_grid (data : list (list pystr))
    (filename : pystr) (w w' : World) (ws : Worksheet) :
  export_to_excel data filename w = (Ok tt, w') ->
  written_sheet w' filename = Some ws ->
  (forall r c cell, cells ws !! (r, c) = Some cell ->
     value cell = stored (lookupZ data (r - 1) ≫= fun row => lookupZ row (c - 1))) /\
  (forall header, head data = Some header -> header <> [] ->
     (forall r c, is_Some (cells ws !! (r, c))
                  <-> 1 <= r <= len data /\ 1 <= c <= len header) /\
     max_row ws = len data /\ max_column ws = len header) /\
  (head data = Some [] -> cells ws = ∅).
Proof.
  intros Hexp Hws.
  apply export_to_excel_inv in Hexp
    as (header & rest & -> & (Hframe & Hrows & Hn) & _ & Hws').
  rewrite Hws in Hws'. injection Hws' as ->. split; [|split].
  - intros r c cell Hcell. destruct (decide (header = [])) as [->|Hne].
    { by rewrite exported_sheet_no_header, lookup_empty in Hcell. }
    assert (is_Some (cells (exported_sheet header rest) !! (r, c))) as Hin
        by (by rewrite Hcell).
    apply (exported_sheet_rect header rest Hframe Hne) in Hin.
    rewrite exported_sheet_cells in Hcell.
    rewrite sheet_rows_lookup in Hcell by (done || lia).
    simpl in Hcell. injection Hcell as <-. apply written_value.
  - intros h [= <-] Hne.
    pose proof (exported_sheet_rect header rest Hframe Hne) as Hrect.
    split; [exact Hrect|]. apply rect_max; [done| |].
    + unfold len. simpl. lia.
    + destruct header; [done|]. unfold len. simpl. lia.
  - intros [= ->]. apply exported_sheet_no_header.
Qed.

Lemma exported_sheet_holds_the_grid_witness :
  (forall r c cell, cells sheet_AB !! (r, c) = Some cell ->
     value cell = stored (lookupZ grid_AB (r - 1) ≫= fun row => lookupZ row (c - 1))) /\
  (forall header, head grid_AB = Some header -> header <> [] ->
     (forall r c, is_Some (cells sheet_AB !! (r, c))
                  <-> 1 <= r <= len grid_AB /\ 1 <= c <= len header) /\
     max_row sheet_AB = len grid_AB /\ max_column sheet_AB = len header) /\
  (head grid_AB = Some [] -> cells sheet_AB = ∅).
Proof.
  apply (exported_sheet_holds_the_grid grid_AB xlsx empty_world world_AB sheet_AB).
  - vm_compute. reflexivity.
  - vm_compute. reflexivity.
Defined.

(** ** Formatting *)

(** X9: in every exported sheet each cell of row 1 is bold and centered,
    and each cell of every other row is left-aligned and not bold, padded
    cells included. *)
Theorem header_bold_rows_left (data : list (list pystr)) (filename : pystr)
    (w w' : World) (ws : Worksheet) :
  export_to_excel data filename w = (Ok tt, w') ->
  written_sheet w' filename = Some ws ->
  forall r c cell, cells ws !! (r, c) = Some cell ->
    (r = 1 -> bold (font cell) = true /\
              horizontal (alignment cell) = Some (u "center")) /\
    (r <> 1 -> bold (font cell) = false /\
               horizontal (alignment cell) = Some (u "left")).
Proof.
  intros Hexp Hws r c cell Hcell.
  apply export_to_excel_inv in Hexp as (header & rest & -> & _ & _ & Hws').
  rewrite Hws in Hws'. injection Hws' as ->.
  rewrite exported_sheet_cells in Hcell.
  destruct (_ ≫= _) as [v|]; [|done]. simpl in Hcell. injection Hcell as <-.
  unfold written, apply_cell_formatting. split.
  - intros ->. by destruct v.
  - intros Hr. destruct (Z.eqb_spec r 1) as [|_]; [done|]. by destruct v.
Qed.

Lemma header_bold_rows_left_witness :
  (1 = 1 -> bold (font (header_cell (u "A"))) = true /\
            horizontal (alignment (header_cell (u "A"))) = Some (u "center")) /\
  (1 <> 1 -> bold (font (header_cell (u "A"))) = false /\
             horizontal (alignment (header_cell (u "A"))) = Some (u "left")).
Proof.
  apply (header_bold_rows_left grid_AB xlsx empty_world world_AB sheet_AB
           ltac:(vm_compute; reflexivity) ltac:(vm_compute; reflexivity) 1 1).
  vm_compute. reflexivity.
Defined.

(** ** The column dimensions of an exported sheet *)

Lemma widths_entries ws m js : forall d l x,
  foldl (set_width ws m) d js !! l = Some x ->
  d !! l = Some x \/
  exists j, j ∈ js /\ l = column_letter j /\ x = {| width := column_width ws m j |}.
Proof.
  induction js as [|j js IH]; intros d l x Hx; [by left|].
  cbn [foldl] in Hx. apply IH in Hx as [Hx|(j' & Hj' & Hl & Hw)].
  - unfold set_width in Hx. destruct (decide (column_letter j = l)) as [<-|Hne].
    + rewrite lookup_insert_eq in Hx. injection Hx as <-.
      right. exists j. split; [by left|done].
    + rewrite lookup_insert_ne in Hx by done. by left.
  - right. exists j'. split; [by right|done].
Qed.

Lemma stored_len v : 0 <= len_value (stored v) <= 32767.
Proof.
  destruct v as [s|]; simpl; [|lia]. unfold len.
  rewrite length_take. lia.
Qed.

(** X10: an exported sheet has one column dimension for each column of the
    header, under the column's letters, and no other; every width is
    between 2 and 32769. *)
Theorem one_width_per_column (data : list (list pystr)) (filename : pystr)
    (w w' : World) (ws : Worksheet) (header : list pystr) :
  export_to_excel data filename w = (Ok tt, w') ->
  written_sheet w' filename = Some ws ->
  head data = Some header ->
  (forall l, is_Some (column_dimensions ws !! l)
             <-> exists j, 1 <= j <= len header /\ get_column_letter j = Ok l) /\
  (forall l d, column_dimensions ws !! l = Some d -> 2 <= width d <= 32769).
Proof.
  intros Hexp Hws Hhead.
  apply export_to_excel_inv in Hexp
    as (h & rest & -> & (Hframe & Hrows & Hn) & _ & Hws').
  rewrite Hws in Hws'. injection Hws' as ->. injection Hhead as ->.
  destruct (decide (header = [])) as [->|Hne].
  { assert (column_dimensions (exported_sheet [] rest) = ∅) as ->.
    { unfold exported_sheet. rewrite put_rows_nil_rows by (by repeat constructor).
      by destruct sheet0_facts as (_ & _ & -> & _). }
    split.
    - intros l. rewrite lookup_empty. split; [by intros [? ?]|].
      intros (j & Hj & _). unfold len in Hj. simpl in Hj. lia.
    - intros l d. by rewrite lookup_empty. }
  destruct (exported_sheet_full header rest Hframe Hne) as (Hrect & Hm & Hn' & _).
  set (ws1 := put_rows 1 (sheet_rows header rest) sheet0) in *.
  assert (column_dimensions (exported_sheet header rest)
          = widths ws1 (len (sheet_rows header rest)) (len header)) as ->.
  { unfold exported_sheet. by destruct header. }
  assert (column_dimensions ws1 = ∅) as Hd0.
  { unfold ws1. destruct (put_rows_title 1 (sheet_rows header rest) sheet0) as [_ ->].
    by destruct sheet0_facts as (_ & _ & -> & _). }
  assert (forall l x,
            widths ws1 (len (sheet_rows header rest)) (len header) !! l = Some x ->
            exists j, 1 <= j <= len header /\ l = column_letter j /\
                      x = {| width := column_width ws1 (len (sheet_rows header rest)) j |})
    as Hentries.
  { intros l x Hx. unfold widths in Hx. apply widths_entries in Hx as [Hx|Hx].
    - by rewrite Hd0, lookup_empty in Hx.
    - destruct Hx as (j & Hj%elem_of_seqZ & Hl & Hw). exists j. split; [lia|done]. }
  split.
  - intros l. split.
    + intros [x (j & Hj & -> & _)%Hentries]. exists j. split; [done|].
      apply get_column_letter_Ok. lia.
    + intros (j & Hj & (_ & ->)%get_column_letter_inv).
      rewrite widths_lookup by lia. by eexists.
  - intros l d (j & Hj & _ & ->)%Hentries. simpl.
    destruct (column_width_spec ws1 _ _ j Hrect Hm Hj) as (longest & -> & _ & r & cell & Hcell & <-).
    unfold ws1 in Hcell. rewrite put_rows_lookup in Hcell.
    destruct sheet0_facts as (He & _). rewrite He, lookup_empty in Hcell.
    destruct (_ ≫= _) as [v|]; [|done]. injection Hcell as <-.
    rewrite written_value. pose proof (stored_len v). lia.
Qed.

Lemma one_width_per_column_witness :
  (forall l, is_Some (column_dimensions sheet_AB !! l)
             <-> exists j, 1 <= j <= len [u "A"; u "B"] /\ get_column_letter j = Ok l) /\
  (forall l d, column_dimensions sheet_AB !! l = Some d -> 2 <= width d <= 32769).
Proof.
  apply (one_width_per_column grid_AB xlsx empty_world world_AB sheet_AB).
  - vm_compute. reflexivity.
  - vm_compute. reflexivity.
  - reflexivity.
Defined.

(** ** What [export_to_excel] touches *)



(** X12: the workbook [export_to_excel] saves has exactly one sheet, the
    active one, and its title is [Table Data]. *)
Theorem saved_workbook_has_one_sheet (data : list (list pystr))
    (filename : pystr) (w w' : World) :
  export_to_excel data filename w = (Ok tt, w') ->
  exists wb ws,
    files w' !! filename = Some wb /\
    worksheets wb = [ws] /\ active wb = 0%nat /\
    title ws = u "Table Data".
Proof.
  intros Hexp. pose proof Hexp as Hinv.
  apply export_to_excel_inv in Hinv as (header & rest & -> & Hok & Hw & _).
  rewrite export_to_excel_closed in Hexp by done. injection Hexp as <-.
  exists (set_active wb0 (exported_sheet header rest)), (exported_sheet header rest).
  split; [simpl; apply lookup_insert_eq|]. split; [done|]. split; [done|].
  unfold exported_sheet.
  destruct (put_rows_title 1 (sheet_rows header rest) sheet0) as [Ht _].
  destruct header; exact Ht.
Qed.

Lemma saved_workbook_has_one_sheet_witness :
  exists wb ws,
    files world_AB !! xlsx = Some wb /\
    worksheets wb = [ws] /\ active wb = 0%nat /\
    title ws = u "Table Data".
Proof.
  apply (saved_workbook_has_one_sheet grid_AB xlsx empty_world world_AB).
  vm_compute. reflexivity.
Defined.

(** ** Column letters *)

(** X13: [get_column_letter] accepts the indexes 1 to 18278 and no other; the
    result has one to three capital letters, reads back as the index, and
    differs between different columns. *)
Theorem column_letters_round_trip :
  (forall j, (exists l, get_column_letter j = Ok l) <-> 1 <= j <= 18278) /\
  (forall j l, get_column_letter j = Ok l ->
     column_index_from_string l = j /\
     (1 <= length l <= 3)%nat /\
     Forall (fun c => (65 <= c <= 90)%N) l) /\
  (forall i j l, get_column_letter i = Ok l -> get_column_letter j = Ok l -> i = j).
Proof.
  split; [|split].
  - intros j. split.
    + by intros [l (? & _)%get_column_letter_inv].
    + intros Hj. eexists. by apply get_column_letter_Ok.
  - intros j l (Hj & ->)%get_column_letter_inv.
    split; [by apply column_letter_index|].
    assert (holds_upto (Z.to_nat 18278) 1
              (fun j => bool_decide ((1 <= length (column_letter j) <= 3)%nat)
                        && forallb (fun c => (65 <=? c)%N && (c <=? 90)%N)
                             (column_letter j)) = true) as Hall
        by (vm_compute; reflexivity).
    pose proof (holds_upto_spec _ _ 1 j Hall ltac:(lia)) as H. clear Hall.
    simpl in H.
    apply andb_true_iff in H as [H1%bool_decide_eq_true H2]. split; [done|].
    apply Forall_forall. intros c Hc%list_elem_of_In.
    rewrite forallb_forall in H2. specialize (H2 c Hc).
    apply andb_true_iff in H2 as [?%N.leb_le ?%N.leb_le]. by split.
  - intros i j l (Hi & ->)%get_column_letter_inv (Hj & Heq)%get_column_letter_inv.
    by apply column_letter_inj.
Qed.

(** ** The errors of [export_to_excel] *)











(** ** [fetch_webpage], case by case *)

Lemma raise_for_status_Ok r :
  ~ (400 <= status_code r < 600) -> raise_for_status r = Ok tt.
Proof.
  intros Hr. unfold raise_for_status.
  replace ((400 <=? status_code r) && (status_code r <? 500)) with false by lia.
  by replace ((500 <=? status_code r) && (status_code r <? 600)) with false by lia.
Qed.

Lemma fetch_webpage_cases requests_get url w :
  (exists html, fetched requests_get url html /\
     fetch_webpage requests_get url w = (Ok (Some html), w)) \/
  (fetch_fails requests_get url /\
     exists msg, fetch_webpage requests_get url w = (Ok None, printed w (msg_failed msg))) \/
  (exists e, requests_get url browser_headers = Raise e /\
     is_RequestException (exn_cls e) = false /\
     fetch_webpage requests_get url w = (Raise e, w)).
Proof.
  unfold fetch_webpage.
  destruct (requests_get url browser_headers) as [r|e] eqn:Hget; cbn [rbind].
  - destruct (decide (400 <= status_code r < 600)) as [Hr|Hr].
    + right. left. split; [left; by exists r|].
      destruct (raise_for_status_error r Hr) as (msg & ->). by exists msg.
    + left. exists (resp_text r). split; [by exists r|].
      by rewrite raise_for_status_Ok.
  - destruct (is_RequestException (exn_cls e)) eqn:He.
    + right. left. split; [right; by exists e|]. by exists (exn_msg e).
    + right. right. by exists e.
Qed.

(** X15: [fetch_webpage] returns the body exactly when there is a response
    whose status is not one from 400 to 599, and then prints nothing; it
    returns [None] exactly when the fetch fails; it raises exactly the
    exceptions of [requests.get] outside the [RequestException] family,
    unchanged; and it never writes a file. *)
Theorem fetch_webpage_outcomes
    (requests_get : pystr -> list (pystr * pystr) -> result Response)
    (url : pystr) (w w' : World) (r : result (option pystr)) :
  fetch_webpage requests_get url w = (r, w') ->
  (forall html, r = Ok (Some html) <-> fetched requests_get url html) /\
  (r = Ok None <-> fetch_fails requests_get url) /\
  (forall e, r = Raise e <->
             requests_get url browser_headers = Raise e /\
             is_RequestException (exn_cls e) = false) /\
  (r <> Ok None -> w' = w) /\
  files w' = files w /\ writable w' = writable w.
Proof.
  intros Hf.
  destruct (fetch_webpage_cases requests_get url w)
    as [(html & Hfetched & H) | [(Hfails & msg & H) | (e & Hget & He & H)]];
    rewrite H in Hf; injection Hf as <- <-.
  - destruct Hfetched as (resp & Hget & Hst & <-).
    split; [|split; [|split; [|done]]].
    + intros html. split.
      * intros [= <-]. by exists resp.
      * intros (resp' & Hget' & _ & <-). rewrite Hget in Hget'. by injection Hget' as <-.
    + split; [done|]. intros [(r' & Hget' & Hr') | (e & Hget' & _)];
        rewrite Hget in Hget'; [injection Hget' as <-; lia | done].
    + intros e. split; [done|]. intros [Hget' _]. by rewrite Hget in Hget'.
  - split; [|split; [|split; [|done]]].
    + intros html. split; [done|]. intros (resp & Hget & Hst & _).
      destruct Hfails as [(r' & Hget' & Hr') | (e & Hget' & _)];
        rewrite Hget in Hget'; [injection Hget' as <-; lia | done].
    + done.
    + intros e. split; [done|]. intros [Hget He].
      destruct Hfails as [(r' & Hget' & Hr') | (e' & Hget' & He')];
        rewrite Hget in Hget'; [done|]. injection Hget' as <-. by rewrite He in He'.
  - split; [|split; [|split; [|done]]].
    + intros html. split; [done|]. intros (resp & Hget' & _). by rewrite Hget in Hget'.
    + split; [done|]. intros [(r' & Hget' & Hr') | (e' & Hget' & He')];
        rewrite Hget in Hget'; [done|]. injection Hget' as <-. by rewrite He in He'.
    + intros e'. split; [by intros [= <-]|]. intros [Hget' _].
      rewrite Hget in Hget'. by injection Hget' as <-.
Qed.

Lemma fetch_webpage_outcomes_witness :
  (forall html, Ok (Some (u "body")) = Ok (Some html)
                <-> fetched (server 200 (u "body")) main_url html) /\
  (Ok (Some (u "body")) = Ok None <-> fetch_fails (server 200 (u "body")) main_url) /\
  (forall e, Ok (Some (u "body")) = Raise e <->
             server 200 (u "body") main_url browser_headers = Raise e /\
             is_RequestException (exn_cls e) = false) /\
  (Ok (Some (u "body")) <> Ok None -> empty_world = empty_world) /\
  files empty_world = files empty_world /\
  writable empty_world = writable empty_world.
Proof.
  apply (fetch_webpage_outcomes (server 200 (u "body")) main_url
           empty_world empty_world (Ok (Some (u "body")))).
  vm_compute. reflexivity.
Defined.

(** ** [main], outcome by outcome *)


Lemma fetched_fun requests_get url html1 html2 :
  fetched requests_get url html1 -> fetched requests_get url html2 -> html1 = html2.
Proof.
  intros (r1 & H1 & _ & <-) (r2 & H2 & _ & <-). rewrite H1 in H2. by injection H2 as <-.
Qed.

Lemma fetch_webpage_fetched requests_get url html w :
  fetched requests_get url html ->
  fetch_webpage requests_get url w = (Ok (Some html), w).
Proof.
  intros Hf.
  destruct (fetch_webpage_cases requests_get url w)
    as [(html' & Hf' & H) | [(Hfails & msg & H) | (e & Hget & He & H)]].
  - by rewrite (fetched_fun _ _ _ _ Hf Hf').
  - destruct Hf as (r & Hget & Hst & _).
    destruct Hfails as [(r' & Hget' & Hr') | (e & Hget' & _)];
      rewrite Hget in Hget'; [injection Hget' as <-; lia | done].
  - destruct Hf as (r & Hget' & _). by rewrite Hget in Hget'.
Qed.



(** X17: [main] ends normally with [Table found!] and [Data has been exported
    to table_data.xlsx] printed exactly when the request brings a body that
    is not empty, the parsed page has a [table] of class [tablaCat], the
    writer accepts the grid extracted from the first such table, and
    [table_data.xlsx] can be written. *)
Theorem main_exports_iff
    (requests_get : pystr -> list (pystr * pystr) -> result Response)
    (BeautifulSoup : pystr -> PageElement) (w : World) :
  (exists w', main requests_get BeautifulSoup w = (Ok tt, w') /\
              stdout w' = stdout w ++ [msg_found; msg_exported]) <->
  (exists html table,
     fetched requests_get main_url html /\ html <> [] /\
     find (table_locator (u "tablaCat")) (BeautifulSoup html) = Some table /\
     writer_accepts (extract_table_data table) /\
     writable w (u "table_data.xlsx") = true).
Proof.
  rewrite main_unfold. split.
  - intros (w' & Hmain & Hout).
    destruct (fetch_webpage_cases requests_get main_url w)
      as [(html & Hf & H) | [(Hfails & msg & H) | (e & Hget & He & H)]];
      rewrite H in Hmain; clear H.
    + destruct html as [|c html].
      { injection Hmain as <-. apply (f_equal length) in Hout.
        rewrite length_app in Hout. simpl in Hout. lia. }
      destruct (find _ _) as [table|] eqn:Hfind.
      * destruct (export_to_excel _ _ _) as [[[]|e] w2] eqn:Hexp; [|done].
        exists (c :: html), table. split; [done|]. split; [done|]. split; [done|].
        apply export_to_excel_inv in Hexp as (header & rest & Hdata & Hexp & Hw & _).
        split; [|exact Hw]. exists header, rest. split; [done|].
        rewrite Hdata. by apply exportable_iff.
      * injection Hmain as <-. simpl in Hout.
        apply app_inv_head in Hout. done.
    + injection Hmain as <-. simpl in Hout. apply app_inv_head in Hout. done.
    + done.
  - intros (html & table & Hf & Hne & Hfind & (header & rest & Hdata & Hacc) & Hw).
    rewrite (fetch_webpage_fetched _ _ _ w Hf).
    destruct html as [|c html]; [done|]. rewrite Hfind. rewrite Hdata in Hacc |- *.
    rewrite export_to_excel_closed; [|by apply exportable_iff|done].
    eexists. split; [done|]. simpl. by rewrite <- app_assoc.
Qed.

(** ** The two scripts on the same page *)

Lemma find_all_elem st e x : x ∈ find_all st e -> x ∈ descendants e.
Proof. rewrite find_all_filter. by intros [_ ?]%list_elem_of_filter. Qed.

Lemma cell_in_text (table : PageElement) (row : list pystr) (cell : pystr) :
  row ∈ extract_table_data table -> cell ∈ row ->
  exists a b, text table = a ++ cell ++ b.
Proof.
  rewrite extract_table_data_fmap. intros (tr & -> & Htr)%list_elem_of_fmap Hcell.
  unfold row_cells in Hcell. apply list_elem_of_fmap in Hcell as (col & -> & Hcol).
  apply find_all_elem in Htr, Hcol.
  destruct (text_descendant table col (descendants_trans _ _ _ Htr Hcol))
    as (a & b & ->).
  destruct (strip_spec (text col)) as (a' & b' & Hs & _).
  exists (a ++ a'), (b' ++ b). rewrite Hs at 1. by rewrite <- !app_assoc.
Qed.

(** X18: when the page is fetched and decoded, [scraper.py] prints the text
    of the parsed page in one [print], and every cell [extract_table_data]
    returns for any table of that page is a piece of the printed text.
    When [urlopen], [read] or the decoding raises, the script ends with
    that exception and has printed nothing. *)
Theorem scraper_prints_every_cell (HTTPResponse : Type)
    (urlopen : pystr -> result HTTPResponse)
    (read : HTTPResponse -> result (list N))
    (decode_utf8 : list N -> result pystr)
    (BeautifulSoup : pystr -> PageElement) (w w' : World) (r : result unit) :
  scraper HTTPResponse urlopen read decode_utf8 BeautifulSoup w = (r, w') ->
  (r = Ok tt ->
   exists page raw html,
     urlopen main_url = Ok page /\ read page = Ok raw /\
     decode_utf8 raw = Ok html /\
     w' = printed w (text (BeautifulSoup html)) /\
     forall table row cell,
       table ∈ descendants (BeautifulSoup html) ->
       row ∈ extract_table_data table -> cell ∈ row ->
       exists a b, text (BeautifulSoup html) = a ++ cell ++ b) /\
  (forall e, r = Raise e ->
     w' = w /\
     (urlopen main_url = Raise e \/
      exists page, urlopen main_url = Ok page /\
        (read page = Raise e \/
         exists raw, read page = Ok raw /\ decode_utf8 raw = Raise e))).
Proof.
  unfold scraper, bindM, lift. cbv zeta.
  destruct (urlopen main_url) as [page|e] eqn:Hopen.
  - destruct (read page) as [raw|e] eqn:Hread; cbn [rbind].
    + destruct (decode_utf8 raw) as [html|e] eqn:Hdec.
      * unfold print. intros [= <- <-]. split; [|done]. intros _.
        exists page, raw, html. split; [done|]. split; [done|]. split; [done|].
        split; [done|]. intros table row cell Htable Hrow Hcell.
        destruct (cell_in_text table row cell Hrow Hcell) as (a & b & Ht).
        destruct (text_descendant _ _ Htable) as (a' & b' & ->).
        exists (a' ++ a), (b ++ b'). rewrite Ht. by rewrite <- !app_assoc.
      * intros [= <- <-]. split; [done|]. intros e' [= <-]. split; [done|].
        right. exists page. split; [done|]. right. by exists raw.
    + intros [= <- <-]. split; [done|]. intros e' [= <-]. split; [done|].
      right. exists page. split; [done|]. by left.
  - intros [= <- <-]. split; [done|]. intros e' [= <-]. split; [done|]. by left.
Qed.

Lemma scraper_prints_every_cell_witness :
  (Ok tt = Ok tt ->
   exists (page : unit) raw html,
     Ok tt = Ok page /\ Ok (@nil N) = Ok raw /\
     Ok (u "body") = Ok html /\
     printed empty_world (text (small_page (u "body")))
     = printed empty_world (text (small_page html)) /\
     forall table row cell,
       table ∈ descendants (small_page html) ->
       row ∈ extract_table_data table -> cell ∈ row ->
       exists a b, text (small_page html) = a ++ cell ++ b) /\
  (forall e, Ok tt = Raise e ->
     printed empty_world (text (small_page (u "body"))) = empty_world /\
     (Ok tt = Raise e \/
      exists page : unit, Ok tt = Ok page /\
        (Ok (@nil N) = Raise e \/
         exists raw, Ok (@nil N) = Ok raw /\ Ok (u "body") = Raise e))).
Proof.
  apply (scraper_prints_every_cell unit (fun _ => Ok tt) (fun _ => Ok [])
           (fun _ => Ok (u "body")) small_page empty_world
           (printed empty_world (text (small_page (u "body")))) (Ok tt)).
  reflexivity.
Defined.

(** ** Exporting twice *)


